(** * QA_Framework: token cache, API client header set and dashboard scan

    A shallow embedding of [utils/auth.py], [utils/api_client.py] and
    [pages/dashboard_page.py], with the properties of the token cache, the
    client's header mutation and the tenant-isolation scan proved over it.

    Conventions of the embedding:
    - a [float] is an integer number of seconds, an infinity or NaN; the
      rounding of Python floats is outside the model.  [time.time()]
      reads a number.
    - the string fields of a token have the types of their annotations
      ([access_token : str], [refresh_token : Optional[str]]), and so have
      the values a response gives them.  A response body may fail to
      decode, may be a JSON value that is not an object, and its
      ["expires_in"] may be any JSON value.
    - Python dicts that are mutated ([_token_cache], [APIClient.headers])
      are [gmap]s; dict literals handed to [requests] are association lists. *)

From Stdlib Require Import ZArith Ascii String List Bool Lia.
From stdpp Require Import base option gmap strings list fin_maps pretty.

Local Open Scope string_scope.
Local Open Scope Z_scope.

(** Further conventions, for [utils/config.py], the request methods of
    [utils/api_client.py] and the fixtures of [conftest.py]:
    - [os.environ] is a [gmap] from names to values, the same at import
      time and at call time;
    - [str.lower] changes the ASCII letters only; [str.upper] is left
      open, as a parameter of the one function that calls it;
    - a call through the [requests.Session] is seen by how it ends, the
      adapter's retries included: a [RequestException], or a response;
    - a project id is an [int], printed in decimal in URLs. *)

(** ** Python helpers shared by the modules *)

(** [bool(s)] for a [str]. *)
Definition truthy (s : string) : bool :=
  match s with
  | EmptyString => false
  | String _ _ => true
  end.

(** [bool(o)] for an [Optional[str]]: [None] and [""] are both falsy. *)
Definition truthy_opt (o : option string) : bool :=
  match o with
  | None => false
  | Some s => truthy s
  end.

(** [c.lower()] on one character; only the ASCII letters have another
    case here, every other byte is left alone. *)
Definition lower_char (c : ascii) : ascii :=
  let n := N_of_ascii c in
  if ((65 <=? n) && (n <=? 90))%N then ascii_of_N (n + 32) else c.

(** [s.lower()] *)
Fixpoint lower (s : string) : string :=
  match s with
  | EmptyString => EmptyString
  | String c rest => String (lower_char c) (lower rest)
  end.

Module Config.

(** ** [utils/config.py] *)

Inductive Environment := LOCAL | STAGING | PRODUCTION.

(** [Environment(value)]: the member with this value, [None] where Python
    raises [ValueError]. *)
Definition Environment_of_value (value : string) : option Environment :=
  if String.eqb value "local" then Some LOCAL
  else if String.eqb value "staging" then Some STAGING
  else if String.eqb value "production" then Some PRODUCTION
  else None.

Record TenantConfig := mkTenantConfig {
  tenant_id : string;
  subdomain : string;
  admin_email : string;
  admin_password : string
}.

Record BrowserStackConfig := mkBrowserStackConfig {
  username : string;
  access_key : string;
  project_name : string;
  build_name : string
}.

(** The dicts built by [get_browser_launch_options] and
    [get_context_options]. *)
Record LaunchOptions := mkLaunchOptions {
  headless : bool;
  slow_mo : Z
}.

Record ContextOptions := mkContextOptions {
  viewport_width : Z;
  viewport_height : Z;
  ignore_https_errors : bool
}.

Inductive result (A : Type) :=
| Ok (a : A)
| ValueError (msg : string).
Arguments Ok {A} a.
Arguments ValueError {A} msg.

Definition ENV_KEY : string := "TEST_ENV".
Definition HEADLESS_KEY : string := "HEADLESS".
Definition BS_USERNAME_KEY : string := "BROWSERSTACK_USERNAME".
Definition BS_ACCESS_KEY : string := "BROWSERSTACK_ACCESS_KEY".

Definition DEFAULT_TIMEOUT : Z := 15000.
Definition ELEMENT_TIMEOUT : Z := 10000.
Definition NAVIGATION_TIMEOUT : Z := 30000.

Definition API_ENDPOINTS (env : Environment) : string :=
  match env with
  | LOCAL => "http://localhost:8000/api/v1"
  | STAGING => "https://api.staging.workflowpro.com/api/v1"
  | PRODUCTION => "https://api.workflowpro.com/api/v1"
  end.

Section Environ.

(** [os.environ]; it is the same when the module is imported and when
    its methods are called. *)
Variable environ : gmap string string.

(** [os.getenv(key)] and [os.getenv(key, default)] *)
Definition getenv (key : string) : option string := environ !! key.

Definition getenv_default (key dflt : string) : string :=
  default dflt (environ !! key).

Definition TENANTS : gmap string TenantConfig :=
  <["company1" := {| tenant_id := "company1"; subdomain := "company1";
                     admin_email := "admin@company1.com";
                     admin_password :=
                       getenv_default "COMPANY1_PASSWORD" "password123" |}]>
  (<["company2" := {| tenant_id := "company2"; subdomain := "company2";
                      admin_email := "admin@company2.com";
                      admin_password :=
                        getenv_default "COMPANY2_PASSWORD" "password123" |}]>
  (<["company3" := {| tenant_id := "company3"; subdomain := "company3";
                      admin_email := "admin@company3.com";
                      admin_password :=
                        getenv_default "COMPANY3_PASSWORD" "password123" |}]>
   ∅)).

(** [Config.get_environment] *)
Definition get_environment : Environment :=
  let env_str := lower (getenv_default ENV_KEY "staging") in
  match Environment_of_value env_str with
  | Some env => env
  | None => STAGING
  end.

(** [Config.is_headless] *)
Definition is_headless : bool :=
  String.eqb (lower (getenv_default HEADLESS_KEY "true")) "true".

(** [Config.get_tenant] *)
Definition get_tenant (tenant_id : string) : result TenantConfig :=
  match TENANTS !! tenant_id with
  | None => ValueError ("Unknown tenant: " +:+ tenant_id)
  | Some t => Ok t
  end.

(** [Config.get_api_base_url] *)
Definition get_api_base_url : string := API_ENDPOINTS get_environment.

(** [TenantConfig.base_url] *)
Definition base_url (self : TenantConfig) : string :=
  match get_environment with
  | LOCAL => "http://localhost:3000"
  | STAGING => "https://" +:+ subdomain self +:+ ".staging.workflowpro.com"
  | PRODUCTION => "https://" +:+ subdomain self +:+ ".workflowpro.com"
  end.

(** [Config.get_browserstack_config] *)
Definition get_browserstack_config : option BrowserStackConfig :=
  let username := getenv BS_USERNAME_KEY in
  let access_key := getenv BS_ACCESS_KEY in
  if truthy_opt username && truthy_opt access_key
  then Some {| username := default "" username;
               access_key := default "" access_key;
               project_name := "WorkFlow Pro Tests";
               build_name := "Automated Tests" |}
  else None.

(** [Config.get_browser_launch_options] *)
Definition get_browser_launch_options : LaunchOptions :=
  {| headless := is_headless;
     slow_mo := if is_headless then 0 else 100 |}.

(** [Config.get_context_options] *)
Definition get_context_options : ContextOptions :=
  {| viewport_width := 1280;
     viewport_height := 720;
     ignore_https_errors :=
       match get_environment with PRODUCTION => false | _ => true end |}.

End Environ.

End Config.

Module Auth.

(** ** Data model of [utils/auth.py] *)

(** A Python [float], as far as its comparisons and sums go: a number
    (here an integer: rounding is outside the model), an infinity, or
    NaN. *)
Inductive pyfloat :=
| Finite (z : Z)
| PosInf
| NegInf
| NaN.

(** [-a], [a + b], [a - b] *)
Definition fneg (a : pyfloat) : pyfloat :=
  match a with
  | Finite z => Finite (- z)
  | PosInf => NegInf
  | NegInf => PosInf
  | NaN => NaN
  end.

Definition fadd (a b : pyfloat) : pyfloat :=
  match a, b with
  | NaN, _ | _, NaN => NaN
  | PosInf, NegInf | NegInf, PosInf => NaN
  | PosInf, _ | _, PosInf => PosInf
  | NegInf, _ | _, NegInf => NegInf
  | Finite x, Finite y => Finite (x + y)
  end.

Definition fsub (a b : pyfloat) : pyfloat := fadd a (fneg b).

(** [a < b] and [a >= b]; every comparison with NaN is [False]. *)
Definition flt (a b : pyfloat) : bool :=
  match a, b with
  | NaN, _ | _, NaN => false
  | Finite x, Finite y => x <? y
  | _, NegInf => false
  | NegInf, _ => true
  | PosInf, _ => false
  | Finite _, PosInf => true
  end.

Definition fge (a b : pyfloat) : bool :=
  match a, b with
  | NaN, _ | _, NaN => false
  | Finite x, Finite y => y <=? x
  | _, NegInf => true
  | NegInf, _ => false
  | PosInf, _ => true
  | Finite _, PosInf => false
  end.

(** The order of the extended reals, as a proposition: [a] lies strictly
    before [b].  NaN is before nothing and nothing is before NaN. *)
Definition float_lt (a b : pyfloat) : Prop :=
  match a, b with
  | Finite x, Finite y => x < y
  | Finite _, PosInf => True
  | NegInf, Finite _ => True
  | NegInf, PosInf => True
  | _, _ => False
  end.

Record AuthToken := mkAuthToken {
  access_token : string;
  refresh_token : option string;
  expires_at : pyfloat;
  tenant_id : string;
  user_email : string
}.

(** A request handed to [requests.post]. *)
Record Request := mkRequest {
  url : string;
  json : list (string * string);
  headers : list (string * string);
  timeout : Z
}.

(** A decoded JSON value, as far as [time.time() + value] tells values
    apart; Python's [json] also reads [NaN] and [Infinity]. *)
Inductive jvalue :=
| JNull
| JBool (b : bool)
| JInt (n : Z)
| JFloat (f : pyfloat)
| JStr (s : string)
| JArray
| JObject.

(** A JSON object from the auth endpoints.  A key may be absent ([None]);
    ["refresh_token"] may also be present with the value [null]
    ([Some None]).  The values of ["access_token"] and ["refresh_token"]
    are strings, as the fields they fill are annotated; the value of
    ["expires_in"] is any JSON value. *)
Record Body := mkBody {
  j_access_token : option string;
  j_refresh_token : option (option string);
  j_expires_in : option jvalue
}.

(** What a response carries: a body that is not JSON, a JSON value that is
    not an object, or an object. *)
Inductive Payload :=
| Undecodable
| NotObject
| Object (data : Body).

(** What one [requests.post] does: it raises a transport-level
    [RequestException] (connection error, timeout), or a response arrives. *)
Inductive Outcome :=
| TransportError
| Responded (status_code : Z) (payload : Payload).

Inductive exn :=
| RequestException
| ValueError (msg : string)
| TypeError
| AttributeError
| OverflowError.

Inductive result (A : Type) :=
| Ok (a : A)
| Raise (e : exn).
Arguments Ok {A} a.
Arguments Raise {A} e.

(** The state the methods act on: how many times [time.time()] was read,
    the requests sent so far (oldest first), and the class-level
    [_token_cache], keyed by [(tenant_id, email)]. *)
Record World := mkWorld {
  time_calls : nat;
  sent : list Request;
  _token_cache : gmap (string * string) AuthToken
}.

Definition M (A : Type) : Type := World -> result A * World.

Definition ret {A} (a : A) : M A := fun w => (Ok a, w).

Definition raise {A} (e : exn) : M A := fun w => (Raise e, w).

Definition bind {A B} (m : M A) (k : A -> M B) : M B :=
  fun w =>
    match m w with
    | (Ok a, w') => k a w'
    | (Raise e, w') => (Raise e, w')
    end.

(** [try: m except requests.RequestException: h] *)
Definition try_except {A} (m : M A) (h : M A) : M A :=
  fun w =>
    match m w with
    | (Raise RequestException, w') => h w'
    | r => r
    end.

Notation "'do' x <- m ; k" := (bind m (fun x => k))
  (at level 10, x name, m at level 100, k at level 200).
Notation "m ;; k" := (bind m (fun _ => k))
  (at level 100, k at level 200, right associativity).

Definition EXPIRY_BUFFER_SECONDS : Z := 300.

(** From this magnitude on an [int] has no [float]: the conversion raises
    [OverflowError]. *)
Definition INT_TO_FLOAT_LIMIT : Z := 2 ^ 1024 - 2 ^ 970.

(** The right operand of [time.time() + value]: the float added, or the
    exception the addition raises. *)
Definition seconds_of (value : jvalue) : exn + pyfloat :=
  match value with
  | JInt n => if Z.abs n <? INT_TO_FLOAT_LIMIT then inr (Finite n)
              else inl OverflowError
  | JBool b => inr (Finite (if b then 1 else 0))
  | JFloat f => inr f
  | JNull | JStr _ | JArray | JObject => inl TypeError
  end.

(** [data.get("expires_in", 3600)], as the operand of the sum. *)
Definition expires_in (data : Body) : exn + pyfloat :=
  seconds_of (default (JInt 3600) (j_expires_in data)).

(** The three ways the [try] body of [_request_token] and [refresh_token]
    ends, by the outcome of its request: a [RequestException] (no
    response, a 4xx/5xx status, or a body that is not JSON); the token is
    built from the object [data]; or an exception that the [except]
    clause does not catch. *)
Definition request_failed (o : Outcome) : Prop :=
  o = TransportError \/
  (exists st p, o = Responded st p /\ 400 <= st < 600) \/
  (exists st, o = Responded st Undecodable).

Definition request_succeeded (o : Outcome) (data : Body) : Prop :=
  exists st, o = Responded st (Object data) /\ ~ (400 <= st < 600) /\
             exists secs, expires_in data = inr secs.

Definition request_raises (o : Outcome) (e : exn) : Prop :=
  exists st, ~ (400 <= st < 600) /\
    ((o = Responded st NotObject /\ e = AttributeError) \/
     (exists data, o = Responded st (Object data) /\ expires_in data = inl e)).

Section Env.

(** The environment: the clock's successive readings, the remote end's
    answer to the [n]-th request, and [Config.get_api_base_url()]. *)
Variable clock : nat -> Z.
Variable network : nat -> Request -> Outcome.
Variable api_base_url : string.

(** [time.time()] *)
Definition time_time : M Z :=
  fun w => (Ok (clock (time_calls w)),
            mkWorld (S (time_calls w)) (sent w) (_token_cache w)).

(** [requests.post(url, json=..., headers=..., timeout=...)] *)
Definition requests_post (req : Request) : M (Z * Payload) :=
  fun w =>
    let w' := mkWorld (time_calls w) (sent w ++ [req]) (_token_cache w) in
    match network (length (sent w)) req with
    | TransportError => (Raise RequestException, w')
    | Responded st p => (Ok (st, p), w')
    end.

(** [response.raise_for_status()]: an [HTTPError] (a [RequestException])
    for a 4xx or 5xx status. *)
Definition raise_for_status (status_code : Z) : M unit :=
  if (400 <=? status_code) && (status_code <? 600)
  then raise RequestException
  else ret tt.

(** [response.json()]: [requests.exceptions.JSONDecodeError] is a
    [RequestException].  The value is the object, or [None] for a JSON
    value of another kind. *)
Definition response_json (payload : Payload) : M (option Body) :=
  match payload with
  | Undecodable => raise RequestException
  | NotObject => ret None
  | Object data => ret (Some data)
  end.

(** [data.get(key, default)]; only a dict has [get]. *)
Definition data_get {A} (data : option Body) (field : Body -> option A)
    (dflt : A) : M A :=
  match data with
  | None => raise AttributeError
  | Some d => ret (default dflt (field d))
  end.

(** [now + value] *)
Definition float_add (now : Z) (value : jvalue) : M pyfloat :=
  match seconds_of value with
  | inl e => raise e
  | inr secs => ret (fadd (Finite now) secs)
  end.

Definition cache_lookup (key : string * string) : M (option AuthToken) :=
  fun w => (Ok (_token_cache w !! key), w).

Definition cache_store (key : string * string) (t : AuthToken) : M unit :=
  fun w => (Ok tt, mkWorld (time_calls w) (sent w) (<[key := t]> (_token_cache w))).

(** [AuthToken.is_expired] *)
Definition is_expired (self : AuthToken) : M bool :=
  do now <- time_time;
  ret (fge (Finite now) (expires_at self)).

(** [AuthToken.is_valid]; [and] does not evaluate its right operand when
    the left one is falsy. *)
Definition is_valid (self : AuthToken) : M bool :=
  if truthy (access_token self)
  then do e <- is_expired self; ret (negb e)
  else ret false.

End Env.

(** ** [class AuthManager] *)
Module AuthManager.

Section Methods.

Variable clock : nat -> Z.
Variable network : nat -> Request -> Outcome.
Variable api_base_url : string.

(** The [requests.post] arguments of [_request_token]. *)
Definition login_request (tenant_id email password : string) : Request :=
  {| url := api_base_url +:+ "/auth/login";
     json := [("email", email); ("password", password)];
     headers := [("X-Tenant-ID", tenant_id);
                 ("Content-Type", "application/json")];
     timeout := 10 |}.

(** [AuthManager._request_token]; the arguments of [AuthToken(...)] are
    evaluated in the order they are written. *)
Definition _request_token (tenant_id email password : string) : M AuthToken :=
  try_except
    (do response <- requests_post network (login_request tenant_id email password);
     raise_for_status (fst response);;
     do data <- response_json (snd response);
     do access <- data_get data j_access_token "";
     do refresh <- data_get data j_refresh_token None;
     do now <- time_time clock;
     do seconds <- data_get data j_expires_in (JInt 3600);
     do expires <- float_add now seconds;
     ret {| access_token := access;
            refresh_token := refresh;
            expires_at := expires;
            tenant_id := tenant_id;
            user_email := email |})
    (do now <- time_time clock;
     ret {| access_token := "dummy_token_" +:+ tenant_id +:+ "_" +:+ email;
            refresh_token := None;
            expires_at := Finite (now + 3600);
            tenant_id := tenant_id;
            user_email := email |}).

(** The cache check at the head of [get_token]: [Some cached_token] when
    the method returns from inside the nested [if]s, [None] when control
    falls through to the request. *)
Definition check_cache (cache_key : string * string) (force_refresh : bool)
  : M (option AuthToken) :=
  if force_refresh then ret None
  else
    do entry <- cache_lookup cache_key;
    match entry with
    | None => ret None
    | Some cached_token =>
        do valid <- is_valid clock cached_token;
        if valid then
          do now <- time_time clock;
          if flt (Finite now)
                 (fsub (expires_at cached_token) (Finite EXPIRY_BUFFER_SECONDS))
          then ret (Some cached_token)
          else ret None
        else ret None
    end.

(** The condition under which [get_token] answers from the cache, in the
    words of the spec: no forced refresh, an entry exists, it is valid at
    the reading [is_valid] takes, and the next reading lies before
    [expires_at - EXPIRY_BUFFER_SECONDS]. *)
Definition cache_hit (cache_key : string * string) (force_refresh : bool)
    (w : World) (cached_token : AuthToken) : Prop :=
  force_refresh = false /\
  _token_cache w !! cache_key = Some cached_token /\
  access_token cached_token <> "" /\
  float_lt (Finite (clock (time_calls w))) (expires_at cached_token) /\
  float_lt (Finite (clock (S (time_calls w))))
           (fsub (expires_at cached_token) (Finite EXPIRY_BUFFER_SECONDS)).

(** [AuthManager.get_token] *)
Definition get_token (tenant_id email password : string) (force_refresh : bool)
  : M AuthToken :=
  let cache_key := (tenant_id, email) in
  do hit <- check_cache cache_key force_refresh;
  match hit with
  | Some cached_token => ret cached_token
  | None =>
      do token <- _request_token tenant_id email password;
      cache_store cache_key token;;
      ret token
  end.

(** The [requests.post] arguments of [refresh_token]; [r] is
    [token.refresh_token]. *)
Definition refresh_request (token : AuthToken) (r : string) : Request :=
  {| url := api_base_url +:+ "/auth/refresh";
     json := [("refresh_token", r)];
     headers := [("X-Tenant-ID", Auth.tenant_id token);
                 ("Content-Type", "application/json")];
     timeout := 10 |}.

(** [AuthManager.refresh_token] *)
Definition refresh_token (token : AuthToken) : M AuthToken :=
  match Auth.refresh_token token with
  | None => raise (ValueError "No refresh token available")
  | Some r =>
      if negb (truthy r) then raise (ValueError "No refresh token available")
      else
        try_except
          (do response <- requests_post network (refresh_request token r);
           raise_for_status (fst response);;
           do data <- response_json (snd response);
           do access <- data_get data j_access_token "";
           do refresh <- data_get data j_refresh_token (Auth.refresh_token token);
           do now <- time_time clock;
           do seconds <- data_get data j_expires_in (JInt 3600);
           do expires <- float_add now seconds;
           let new_token :=
             {| access_token := access;
                Auth.refresh_token := refresh;
                expires_at := expires;
                tenant_id := Auth.tenant_id token;
                user_email := Auth.user_email token |} in
           let cache_key := (Auth.tenant_id token, Auth.user_email token) in
           cache_store cache_key new_token;;
           ret new_token)
          (ret token)
  end.

(** [AuthManager.invalidate_token] *)
Definition invalidate_token (tenant_id email : string) : M unit :=
  fun w =>
    let cache_key := (tenant_id, email) in
    match _token_cache w !! cache_key with
    | Some _ => (Ok tt, mkWorld (time_calls w) (sent w)
                                (delete cache_key (_token_cache w)))
    | None => (Ok tt, w)
    end.

(** [AuthManager.clear_cache] *)
Definition clear_cache : M unit :=
  fun w => (Ok tt, mkWorld (time_calls w) (sent w) ∅).

End Methods.

Section Headers.

Variable clock : nat -> Z.
Variable network : nat -> Request -> Outcome.
Variable api_base_url : string.
Variable environ : gmap string string.

(** [AuthManager.get_auth_headers] *)
Definition get_auth_headers (tenant_id email password : string)
  : M (gmap string string) :=
  do token <- get_token clock network api_base_url tenant_id email password false;
  ret (<["Authorization" := "Bearer " +:+ access_token token]>
       (<["X-Tenant-ID" := tenant_id]>
       (<["Content-Type" := "application/json"]> ∅))).

(** [AuthManager.get_tenant_auth]; the [ValueError] of [Config.get_tenant]
    propagates. *)
Definition get_tenant_auth (tenant_id : string) : M (gmap string string) :=
  match Config.get_tenant environ tenant_id with
  | Config.ValueError msg => raise (ValueError msg)
  | Config.Ok tenant =>
      get_auth_headers (Config.tenant_id tenant) (Config.admin_email tenant)
                       (Config.admin_password tenant)
  end.

End Headers.

End AuthManager.

(** [get_test_credentials].  [str_upper] is Python's [str.upper], which
    the embedding leaves open. *)
Definition get_test_credentials (str_upper : string -> string)
    (environ : gmap string string)
    (tenant_id role : string) : Config.result (string * string) :=
  match Config.get_tenant environ tenant_id with
  | Config.ValueError msg => Config.ValueError msg
  | Config.Ok tenant =>
      if String.eqb role "admin"
      then Config.Ok (Config.admin_email tenant, Config.admin_password tenant)
      else Config.Ok
             (role +:+ "@" +:+ tenant_id +:+ ".com",
              Config.getenv_default environ
                (str_upper tenant_id +:+ "_" +:+ str_upper role +:+ "_PASSWORD")
                "password123")
  end.

(** Every entry of the cache sits under the key made of its own
    [tenant_id] and [user_email]. *)
Definition cache_consistent (w : World) : Prop :=
  forall key token,
    _token_cache w !! key = Some token ->
    key = (tenant_id token, user_email token).

(** The exceptions of a request's reply that no [except] clause of this
    module catches. *)
Definition uncaught (e : exn) : Prop :=
  e = TypeError \/ e = AttributeError \/ e = OverflowError.

(** Environments of the closed examples: a frozen clock, an auth endpoint
    that is down, one that answers 200 with an empty JSON object, one that
    answers with a token, one whose ["expires_in"] is the string
    ["3600"], and the world before any call. *)
Definition clock_1000 (n : nat) : Z := 1000.
Definition net_down (n : nat) (req : Request) : Outcome := TransportError.
Definition net_empty_body (n : nat) (req : Request) : Outcome :=
  Responded 200 (Object {| j_access_token := None; j_refresh_token := None;
                           j_expires_in := None |}).
Definition net_token (n : nat) (req : Request) : Outcome :=
  Responded 200 (Object {| j_access_token := Some "tok"; j_refresh_token := None;
                           j_expires_in := Some (JInt 7200) |}).
Definition net_string_expires_in (n : nat) (req : Request) : Outcome :=
  Responded 200 (Object {| j_access_token := Some "tok"; j_refresh_token := None;
                           j_expires_in := Some (JStr "3600") |}).
Definition world0 : World :=
  {| time_calls := 0; sent := []; _token_cache := ∅ |}.
Definition refreshable_token : AuthToken :=
  {| access_token := "old"; refresh_token := Some "r1"; expires_at := Finite 900;
     tenant_id := "company1"; user_email := "admin@company1.com" |}.
Definition fetched_token : AuthToken :=
  {| access_token := "tok"; refresh_token := None; expires_at := Finite 8200;
     tenant_id := "company1"; user_email := "admin@company1.com" |}.
Definition nan_token : AuthToken :=
  {| access_token := "tok"; refresh_token := None; expires_at := NaN;
     tenant_id := "company1"; user_email := "admin@company1.com" |}.

End Auth.

Module ApiClient.

(** ** Data model of [utils/api_client.py] *)

(** The arguments given to [urllib3.util.retry.Retry]. *)
Record Retry := mkRetry {
  total : Z;
  backoff_factor : Z;
  status_forcelist : list Z
}.

(** A [requests.Session]: the adapter's retry configuration of each
    mounted prefix. *)
Definition Session := list (string * Retry).

(** A reference to a dict object. *)
Abbreviation ref := positive.

(** The dict objects alive, by reference.  [self.headers] holds a
    reference, so an assignment [self.headers[k] = v] is seen through every
    alias of the dict. *)
Abbreviation Heap := (gmap ref (gmap string string)).

Record APIClient := mkAPIClient {
  base_url : string;
  tenant_id : string;
  headers : ref;
  session : Session
}.

(** [s.rstrip("/")] *)
Fixpoint rstrip_slash (s : string) : string :=
  match s with
  | EmptyString => EmptyString
  | String c rest =>
      match rstrip_slash rest with
      | EmptyString => if Ascii.eqb c "/"%char then EmptyString
                       else String c EmptyString
      | r => String c r
      end
  end.

(** [APIClient.__init__]: the header dict is a new object. *)
Definition __init__ (base_url token tenant_id : string) (h : Heap)
  : APIClient * Heap :=
  let l := fresh (dom h) in
  let retry_strategy :=
    {| total := 3; backoff_factor := 1;
       status_forcelist := [429; 500; 502; 503; 504] |} in
  ({| base_url := rstrip_slash base_url;
      tenant_id := tenant_id;
      headers := l;
      session := [("http://", retry_strategy); ("https://", retry_strategy)] |},
   <[l := <["Authorization" := "Bearer " +:+ token]>
          (<["X-Tenant-ID" := tenant_id]>
          (<["Content-Type" := "application/json"]> ∅))]> h).

(** [APIClient.set_token]: [self.headers["Authorization"] = ...] updates
    the dict object that [self.headers] refers to. *)
Definition set_token (self : APIClient) (token : string) (h : Heap)
  : APIClient * Heap :=
  (self, alter (insert "Authorization" ("Bearer " +:+ token)) (headers self) h).

(** [APIClient.set_tenant] *)
Definition set_tenant (self : APIClient) (tenant_id : string) (h : Heap)
  : APIClient * Heap :=
  ({| base_url := base_url self;
      tenant_id := tenant_id;
      headers := headers self;
      session := session self |},
   alter (insert "X-Tenant-ID" tenant_id) (headers self) h).

(** [self.headers.get(key)], read through the reference. *)
Definition header (self : APIClient) (h : Heap) (key : string) : option string :=
  h !! headers self ≫= fun d => d !! key.

(** The client of the unit tests, built on an empty heap, and its header
    dict. *)
Definition test_client : APIClient * Heap :=
  __init__ "https://api.example.com" "old_token" "company1" ∅.
Definition test_headers : gmap string string :=
  <["Authorization" := "Bearer old_token"]>
    (<["X-Tenant-ID" := "company1"]>
    (<["Content-Type" := "application/json"]> ∅)).

(** *** The requests of the CRUD methods *)

Inductive Method := GET | POST | PUT | DELETE.

Inductive exn :=
| RequestException
| JSONDecodeError.

Inductive result (A : Type) :=
| Ok (a : A)
| Raise (e : exn).
Arguments Ok {A} a.
Arguments Raise {A} e.

Section Calls.

(** Decoded JSON values: the payload dicts and the response bodies. *)
Variable Json : Type.

(** The [json=] argument: a caller's payload, or the [{"email": ...}] dict
    of [add_team_member]. *)
Inductive Payload :=
| Project (payload : Json)
| Email (user_email : string).

(** One [self.session.<method>(url, ...)] call.  [c_headers] is the
    content of the dict passed as [headers=] at the time of the call
    ([None] when the argument is not given). *)
Record Call := mkCall {
  c_method : Method;
  c_url : string;
  c_params : list (string * Z);
  c_json : option Payload;
  c_headers : option (gmap string string);
  c_timeout : Z
}.

(** How a session call ends, retries included: a [RequestException] is
    raised, or a response is returned; its body may not be JSON. *)
Inductive Reply :=
| Failed
| Response (status_code : Z) (body : option Json).

(** The header dicts, and the calls made so far (oldest first). *)
Record ClientWorld := mkClientWorld {
  heap : Heap;
  calls : list Call
}.

Definition M (A : Type) : Type := ClientWorld -> result A * ClientWorld.

Definition ret {A} (a : A) : M A := fun w => (Ok a, w).

Definition raise {A} (e : exn) : M A := fun w => (Raise e, w).

Definition bind {A B} (m : M A) (k : A -> M B) : M B :=
  fun w =>
    match m w with
    | (Ok a, w') => k a w'
    | (Raise e, w') => (Raise e, w')
    end.

Notation "'do' x <- m ; k" := (bind m (fun x => k))
  (at level 10, x name, m at level 100, k at level 200).
Notation "m ;; k" := (bind m (fun _ => k))
  (at level 100, k at level 200, right associativity).

(** The remote end's answer to the [n]-th call. *)
Variable server : nat -> Call -> Reply.

Definition session_call (call : Call) : M (Z * option Json) :=
  fun w =>
    let w' := mkClientWorld (heap w) (calls w ++ [call]) in
    match server (length (calls w)) call with
    | Failed => (Raise RequestException, w')
    | Response st body => (Ok (st, body), w')
    end.

(** [response.raise_for_status()] *)
Definition raise_for_status (response : Z * option Json) : M unit :=
  if (400 <=? fst response) && (fst response <? 600)
  then raise RequestException
  else ret tt.

(** [response.json()] *)
Definition response_json (response : Z * option Json) : M Json :=
  match snd response with
  | Some body => ret body
  | None => raise JSONDecodeError
  end.

(** [self.headers] as an argument: the dict the reference points to. *)
Definition self_headers (self : APIClient) : M (gmap string string) :=
  fun w => (Ok (default ∅ (heap w !! headers self)), w).

(** [APIClient.create_project] *)
Definition create_project (self : APIClient) (payload : Json) : M Json :=
  do hd <- self_headers self;
  do response <- session_call
    {| c_method := POST;
       c_url := base_url self +:+ "/api/v1/projects";
       c_params := [];
       c_json := Some (Project payload);
       c_headers := Some hd;
       c_timeout := 10 |};
  raise_for_status response;;
  response_json response.

(** [APIClient.get_project] *)
Definition get_project (self : APIClient) (project_id : Z) : M Json :=
  do hd <- self_headers self;
  do response <- session_call
    {| c_method := GET;
       c_url := base_url self +:+ "/api/v1/projects/" +:+ pretty project_id;
       c_params := [];
       c_json := None;
       c_headers := Some hd;
       c_timeout := 10 |};
  raise_for_status response;;
  response_json response.

(** [APIClient.list_projects] *)
Definition list_projects (self : APIClient) (page limit : Z) : M Json :=
  do hd <- self_headers self;
  do response <- session_call
    {| c_method := GET;
       c_url := base_url self +:+ "/api/v1/projects";
       c_params := [("page", page); ("limit", limit)];
       c_json := None;
       c_headers := Some hd;
       c_timeout := 10 |};
  raise_for_status response;;
  response_json response.

(** [APIClient.update_project] *)
Definition update_project (self : APIClient) (project_id : Z) (payload : Json)
  : M Json :=
  do hd <- self_headers self;
  do response <- session_call
    {| c_method := PUT;
       c_url := base_url self +:+ "/api/v1/projects/" +:+ pretty project_id;
       c_params := [];
       c_json := Some (Project payload);
       c_headers := Some hd;
       c_timeout := 10 |};
  raise_for_status response;;
  response_json response.

(** [APIClient.delete_project] *)
Definition delete_project (self : APIClient) (project_id : Z) : M unit :=
  do hd <- self_headers self;
  do response <- session_call
    {| c_method := DELETE;
       c_url := base_url self +:+ "/api/v1/projects/" +:+ pretty project_id;
       c_params := [];
       c_json := None;
       c_headers := Some hd;
       c_timeout := 10 |};
  raise_for_status response.

(** [APIClient.add_team_member] *)
Definition add_team_member (self : APIClient) (project_id : Z)
    (user_email : string) : M Json :=
  do hd <- self_headers self;
  do response <- session_call
    {| c_method := POST;
       c_url := base_url self +:+ "/api/v1/projects/" +:+ pretty project_id
                  +:+ "/members";
       c_params := [];
       c_json := Some (Email user_email);
       c_headers := Some hd;
       c_timeout := 10 |};
  raise_for_status response;;
  response_json response.

(** [APIClient.remove_team_member] *)
Definition remove_team_member (self : APIClient) (project_id : Z)
    (user_email : string) : M unit :=
  do hd <- self_headers self;
  do response <- session_call
    {| c_method := DELETE;
       c_url := base_url self +:+ "/api/v1/projects/" +:+ pretty project_id
                  +:+ "/members/" +:+ user_email;
       c_params := [];
       c_json := None;
       c_headers := Some hd;
       c_timeout := 10 |};
  raise_for_status response.

(** [APIClient.health_check]; the [except requests.RequestException]
    clause turns a failed call into [False]. *)
Definition health_check (self : APIClient) : M bool :=
  fun w =>
    match session_call
            {| c_method := GET;
               c_url := base_url self +:+ "/health";
               c_params := [];
               c_json := None;
               c_headers := None;
               c_timeout := 5 |} w with
    | (Ok response, w') => (Ok (fst response =? 200), w')
    | (Raise RequestException, w') => (Ok false, w')
    | (Raise e, w') => (Raise e, w')
    end.

(** [set_token] and [set_tenant] as steps of the same state; the client
    object after the call is the result. *)
Definition do_set_token (self : APIClient) (token : string) : M APIClient :=
  fun w =>
    let r := set_token self token (heap w) in
    (Ok (fst r), mkClientWorld (snd r) (calls w)).

Definition do_set_tenant (self : APIClient) (tenant_id : string) : M APIClient :=
  fun w =>
    let r := set_tenant self tenant_id (heap w) in
    (Ok (fst r), mkClientWorld (snd r) (calls w)).

(** The teardown of the [cleanup_projects] fixture of [conftest.py]:
    [for project_id in created_project_ids: try: delete_project(...)
    except Exception: pass]. *)
Fixpoint cleanup_projects (client : APIClient) (created_project_ids : list Z)
    (w : ClientWorld) : ClientWorld :=
  match created_project_ids with
  | [] => w
  | project_id :: rest =>
      cleanup_projects client rest (snd (delete_project client project_id w))
  end.

End Calls.

Arguments Project {Json} payload.
Arguments Email {Json} user_email.
Arguments mkCall {Json}.
Arguments c_method {Json} c.
Arguments c_url {Json} c.
Arguments c_params {Json} c.
Arguments c_json {Json} c.
Arguments c_headers {Json} c.
Arguments c_timeout {Json} c.
Arguments Failed {Json}.
Arguments Response {Json}.
Arguments mkClientWorld {Json}.
Arguments heap {Json} c.
Arguments calls {Json} c.
Arguments bind {Json A B} m k.
Arguments create_project {Json}.
Arguments get_project {Json}.
Arguments list_projects {Json}.
Arguments update_project {Json}.
Arguments delete_project {Json}.
Arguments add_team_member {Json}.
Arguments remove_team_member {Json}.
Arguments health_check {Json}.
Arguments do_set_token {Json}.
Arguments do_set_tenant {Json}.
Arguments cleanup_projects {Json}.

(** The method [m] makes exactly one call, carrying the headers [hd], and
    leaves the heap alone. *)
Definition sends_with {Json A} (m : M Json A) (w : ClientWorld Json)
    (hd : gmap string string) : Prop :=
  exists call,
    calls (snd (m w)) = (calls w ++ [call])%list /\
    c_headers call = Some hd /\
    heap (snd (m w)) = heap w.

(** The call of [delete_project]. *)
Definition delete_call {Json} (self : APIClient) (hd : gmap string string)
    (project_id : Z) : Call Json :=
  {| c_method := DELETE;
     c_url := base_url self +:+ "/api/v1/projects/" +:+ pretty project_id;
     c_params := [];
     c_json := None;
     c_headers := Some hd;
     c_timeout := 10 |}.

(** The call of [health_check]. *)
Definition health_call {Json} (self : APIClient) : Call Json :=
  {| c_method := GET;
     c_url := base_url self +:+ "/health";
     c_params := [];
     c_json := None;
     c_headers := None;
     c_timeout := 5 |}.

(** The call of [get_project]. *)
Definition get_call {Json} (self : APIClient) (hd : gmap string string)
    (project_id : Z) : Call Json :=
  {| c_method := GET;
     c_url := base_url self +:+ "/api/v1/projects/" +:+ pretty project_id;
     c_params := [];
     c_json := None;
     c_headers := Some hd;
     c_timeout := 10 |}.

(** [n] slashes. *)
Fixpoint slashes (n : nat) : string :=
  match n with
  | O => EmptyString
  | S k => String "/"%char (slashes k)
  end.

Definition ends_with_slash (s : string) : Prop :=
  exists t, s = t +:+ "/".

End ApiClient.

Module Dashboard.

(** ** Data model of [pages/dashboard_page.py] *)

(** Does [s] begin with [p]? *)
Fixpoint starts_with (p s : string) : bool :=
  match p, s with
  | EmptyString, _ => true
  | String _ _, EmptyString => false
  | String a p', String b s' => Ascii.eqb a b && starts_with p' s'
  end.

(** [needle in haystack] for two [str]: does [needle] occur at some
    position of [haystack]? *)
Fixpoint str_in (needle haystack : string) : bool :=
  starts_with needle haystack
  || match haystack with
     | EmptyString => false
     | String _ rest => str_in needle rest
     end.

(** [needle] occurs in [haystack]: some text before it and some after. *)
Definition is_substring (needle haystack : string) : Prop :=
  exists before after, haystack = before +:+ needle +:+ after.

(** A rendered element; [text_content()] is [None] for a node without
    text. *)
Record Card := mkCard {
  text_content : option string
}.

(** What the page object sees of the browser page: whether the load state
    [networkidle] is reached before the timeout, and the elements matching
    [.project-card], in document order. *)
Record Page := mkPage {
  network_idle : bool;
  project_cards : list Card
}.

Inductive result (A : Type) :=
| Ok (a : A)
| TimeoutError.
Arguments Ok {A} a.
Arguments TimeoutError {A}.

(** [BasePage.wait_for_network_idle] *)
Definition wait_for_network_idle (page : Page) : result unit :=
  if network_idle page then Ok tt else TimeoutError.

(** The [for card in project_cards] loop of [verify_no_cross_tenant_data];
    the second component counts the cards whose text was read. *)
Fixpoint scan_cards (excluded_tenant : string) (project_cards : list Card)
    (inspected : nat) : bool * nat :=
  match project_cards with
  | [] => (true, inspected)
  | card :: rest =>
      let text := default "" (text_content card) in
      if str_in excluded_tenant text then (false, S inspected)
      else scan_cards excluded_tenant rest (S inspected)
  end.

(** [DashboardPage.verify_no_cross_tenant_data] *)
Definition verify_no_cross_tenant_data (page : Page) (excluded_tenant : string)
  : result bool :=
  match wait_for_network_idle page with
  | TimeoutError => TimeoutError
  | Ok _ => Ok (fst (scan_cards excluded_tenant (project_cards page) 0))
  end.

(** [card.text_content() or ""] *)
Definition card_text (card : Card) : string := default "" (text_content card).

(** A dashboard of tenant company1, loaded. *)
Definition company1_page : Page :=
  {| network_idle := true;
     project_cards := [ {| text_content := Some "Company1 Roadmap" |};
                        {| text_content := None |};
                        {| text_content := Some "Company1 Hiring" |} ] |}.

End Dashboard.

Module Conftest.

(** ** The API client fixtures of [conftest.py] *)

(** [s.replace(old, new)] for a non-empty [old]: the occurrences of [old]
    are replaced from left to right, without overlap.  [skip] counts the
    characters of an occurrence that is being passed over. *)
Fixpoint replace_from (old new : string) (skip : nat) (s : string) : string :=
  match s with
  | EmptyString => EmptyString
  | String c rest =>
      match skip with
      | S k => replace_from old new k rest
      | O =>
          if Dashboard.starts_with old s
          then new +:+ replace_from old new (pred (String.length old)) rest
          else String c (replace_from old new 0 rest)
      end
  end.

Definition str_replace (old new s : string) : string :=
  replace_from old new 0 s.

Inductive exn :=
| AuthError (e : Auth.exn)
| KeyError (key : string).

Inductive result (A : Type) :=
| Ok (a : A)
| Raise (e : exn).
Arguments Ok {A} a.
Arguments Raise {A} e.

Section Fixtures.

Variable clock : nat -> Z.
Variable network : nat -> Auth.Request -> Auth.Outcome.
Variable environ : gmap string string.

(** The body shared by [api_client_company1] and [api_client_company2]:
    [auth_manager] was built with [Config.get_api_base_url()]. *)
Definition api_client_for (tenant_id : string)
    (w : Auth.World) (h : ApiClient.Heap)
  : result (ApiClient.APIClient * ApiClient.Heap) * Auth.World :=
  match Auth.AuthManager.get_tenant_auth clock network
          (Config.get_api_base_url environ) environ tenant_id w with
  | (Auth.Raise e, w') => (Raise (AuthError e), w')
  | (Auth.Ok headers, w') =>
      match headers !! "Authorization" with
      | None => (Raise (KeyError "Authorization"), w')
      | Some authorization =>
          (Ok (ApiClient.__init__ (Config.get_api_base_url environ)
                 (str_replace "Bearer " "" authorization) tenant_id h), w')
      end
  end.

Definition api_client_company1 := api_client_for "company1".
Definition api_client_company2 := api_client_for "company2".

End Fixtures.

(** A collected test item, as [pytest_collection_modifyitems] uses it: its
    keywords, and the reasons of the skip markers added to it. *)
Record Item := mkItem {
  keywords : gset string;
  skip_reasons : list string
}.

(** [item.add_marker(pytest.mark.skip(reason=...))]: the marker is
    appended to the item's own markers and its name, ["skip"], becomes a
    keyword of the item. *)
Definition add_skip_marker (reason : string) (item : Item) : Item :=
  {| keywords := {["skip"]} ∪ keywords item;
     skip_reasons := (skip_reasons item ++ [reason])%list |}.

(** One round of the [for item in items] loop of
    [pytest_collection_modifyitems]. *)
Definition modify_item (bs_config : option Config.BrowserStackConfig)
    (item : Item) : Item :=
  if bool_decide ("mobile" ∈ keywords item)
     || bool_decide ("browserstack" ∈ keywords item)
  then match bs_config with
       | None => add_skip_marker "BrowserStack not configured" item
       | Some _ => item
       end
  else item.

(** [pytest_collection_modifyitems] *)
Definition pytest_collection_modifyitems (environ : gmap string string)
    (items : list Item) : list Item :=
  let bs_config := Config.get_browserstack_config environ in
  map (modify_item bs_config) items.

End Conftest.

(** * Properties *)

Lemma truthy_true (s : string) : truthy s = true <-> s <> "".
Proof. destruct s; simpl; split; intros; congruence. Qed.

Lemma truthy_false (s : string) : truthy s = false <-> s = "".
Proof. destruct s; simpl; split; intros; congruence. Qed.

Module AuthFacts.

Import Auth.

(** The boolean comparisons decide the order. *)
Lemma flt_float_lt (a b : pyfloat) : flt a b = true <-> float_lt a b.
Proof.
  destruct a, b; simpl; try rewrite Z.ltb_lt; split; intros; try tauto;
    try discriminate.
Qed.

(** [now >= e] is [False] exactly when [e] is NaN or lies after [now]. *)
Lemma fge_false (now : Z) (e : pyfloat) :
  fge (Finite now) e = false <-> e = NaN \/ float_lt (Finite now) e.
Proof.
  destruct e; simpl.
  - rewrite Z.leb_gt. split; [auto|]. intros [H|H]; [discriminate | exact H].
  - split; auto.
  - split; [discriminate|]. intros [H|H]; [discriminate | contradiction].
  - split; auto.
Qed.

Lemma float_lt_fsub (now k : Z) (e : pyfloat) :
  0 <= k ->
  float_lt (Finite now) (fsub e (Finite k)) -> float_lt (Finite now) e.
Proof. destruct e; simpl; intros; try tauto. lia. Qed.

Lemma float_lt_not_nan (a e k : pyfloat) :
  float_lt a (fsub e k) -> e <> NaN.
Proof. intros H ->. destruct a, k; simpl in H; contradiction. Qed.

Lemma seconds_of_uncaught (v : jvalue) (e : exn) :
  seconds_of v = inl e -> uncaught e.
Proof.
  unfold uncaught. destruct v; simpl; intros H;
    try discriminate; try (injection H as <-; auto; fail).
  destruct (Z.abs n <? INT_TO_FLOAT_LIMIT); [discriminate|].
  injection H as <-. auto.
Qed.

#[local] Arguments fge : simpl never.
#[local] Arguments flt : simpl never.
#[local] Arguments fsub : simpl never.
#[local] Arguments fadd : simpl never.
#[local] Arguments float_lt : simpl never.

Section Facts.

Variable clock : nat -> Z.
Variable network : nat -> Request -> Outcome.
Variable api_base_url : string.

Abbreviation get_token := (AuthManager.get_token clock network api_base_url).
Abbreviation _request_token := (AuthManager._request_token clock network api_base_url).
Abbreviation login_request := (AuthManager.login_request api_base_url).
Abbreviation refresh_request := (AuthManager.refresh_request api_base_url).
Abbreviation check_cache := (AuthManager.check_cache clock).

Lemma status_check_true (st : Z) :
  (400 <=? st) && (st <? 600) = true <-> 400 <= st < 600.
Proof. rewrite andb_true_iff, Z.leb_le, Z.ltb_lt. tauto. Qed.

Lemma status_check_false (st : Z) :
  (400 <=? st) && (st <? 600) = false <-> ~ (400 <= st < 600).
Proof. rewrite <- status_check_true. destruct ((400 <=? st) && (st <? 600)); split; intros; congruence. Qed.

Lemma is_valid_run (self : AuthToken) (w : World) :
  is_valid clock self w =
  if truthy (access_token self)
  then (Ok (negb (fge (Finite (clock (time_calls w))) (expires_at self))),
        mkWorld (S (time_calls w)) (sent w) (_token_cache w))
  else (Ok false, w).
Proof.
  unfold is_valid. destruct (truthy (access_token self)); reflexivity.
Qed.

(** The placeholder token of the [except] clause. *)
Lemma request_token_failed (tenant email password : string) (w : World) :
  request_failed (network (length (sent w)) (login_request tenant email password)) ->
  _request_token tenant email password w =
    (Ok {| access_token := "dummy_token_" +:+ tenant +:+ "_" +:+ email;
           refresh_token := None;
           expires_at := Finite (clock (time_calls w) + 3600);
           tenant_id := tenant;
           user_email := email |},
     mkWorld (S (time_calls w)) (sent w ++ [login_request tenant email password])
             (_token_cache w)).
Proof.
  unfold AuthManager._request_token, try_except, bind, requests_post.
  intros [H | [(st & p & H & Hst) | (st & H)]]; rewrite H; simpl.
  - reflexivity.
  - unfold raise_for_status. apply status_check_true in Hst. rewrite Hst.
    reflexivity.
  - unfold raise_for_status.
    destruct ((400 <=? st) && (st <? 600)); reflexivity.
Qed.

(** A login request that succeeds: the token is built from the object,
    with the defaults of [data.get]. *)
Lemma request_token_success (tenant email password : string) (data : Body)
    (secs : pyfloat) (w : World) :
  request_succeeded
    (network (length (sent w)) (login_request tenant email password)) data ->
  expires_in data = inr secs ->
  _request_token tenant email password w =
    (Ok {| access_token := default "" (j_access_token data);
           Auth.refresh_token := default None (j_refresh_token data);
           expires_at := fadd (Finite (clock (time_calls w))) secs;
           tenant_id := tenant;
           user_email := email |},
     mkWorld (S (time_calls w)) (sent w ++ [login_request tenant email password])
             (_token_cache w)).
Proof.
  intros (st & Hnet & Hst & _) Hsecs.
  unfold AuthManager._request_token, try_except, bind, requests_post.
  rewrite Hnet. simpl. unfold raise_for_status.
  apply status_check_false in Hst. rewrite Hst. simpl.
  unfold float_add. unfold expires_in in Hsecs. rewrite Hsecs. reflexivity.
Qed.

(** A reply that makes the [try] body raise what [except] lets through:
    the exception leaves [_request_token], after the request was sent. *)
Lemma request_token_raises (tenant email password : string) (e : exn)
    (w : World) :
  request_raises
    (network (length (sent w)) (login_request tenant email password)) e ->
  uncaught e /\
  exists n,
    _request_token tenant email password w =
      (Raise e, mkWorld n (sent w ++ [login_request tenant email password])
                        (_token_cache w)).
Proof.
  intros (st & Hst & [[Hnet ->] | (data & Hnet & Hsecs)]);
    apply status_check_false in Hst;
    unfold AuthManager._request_token, try_except, bind, requests_post;
    rewrite Hnet; simpl; unfold raise_for_status; rewrite Hst; simpl.
  - split; [unfold uncaught; auto|]. eexists. reflexivity.
  - pose proof (seconds_of_uncaught _ _ Hsecs) as Hun.
    split; [exact Hun|].
    unfold float_add. unfold expires_in in Hsecs. rewrite Hsecs.
    destruct Hun as [-> | [-> | ->]]; eexists; reflexivity.
Qed.

(** Every outcome of a request is of one of the three kinds. *)
Lemma outcome_cases (o : Outcome) :
  request_failed o \/ (exists data, request_succeeded o data) \/
  (exists e, request_raises o e).
Proof.
  destruct o as [|st p].
  - left. left. reflexivity.
  - destruct (Z_le_dec 400 st) as [Hlo|Hlo];
      [destruct (Z_lt_dec st 600) as [Hhi|Hhi]|].
    + left. right. left. exists st, p. auto.
    + destruct p as [| |data].
      * left. right. right. exists st. reflexivity.
      * right. right. exists AttributeError, st. split; [lia|]. left. auto.
      * destruct (expires_in data) as [e|secs] eqn:E.
        -- right. right. exists e, st. split; [lia|]. right. exists data. auto.
        -- right. left. exists data, st. split; [reflexivity|].
           split; [lia|]. exists secs. exact E.
    + destruct p as [| |data].
      * left. right. right. exists st. reflexivity.
      * right. right. exists AttributeError, st. split; [lia|]. left. auto.
      * destruct (expires_in data) as [e|secs] eqn:E.
        -- right. right. exists e, st. split; [lia|]. right. exists data. auto.
        -- right. left. exists data, st. split; [reflexivity|].
           split; [lia|]. exists secs. exact E.
Qed.

(** [_request_token] sends exactly one request and leaves the cache alone.
    It returns a token for the tenant and email asked for, having read the
    clock once, unless the reply makes it raise. *)
Lemma request_token_run (tenant email password : string) (w : World) :
  (exists token,
     _request_token tenant email password w =
       (Ok token, mkWorld (S (time_calls w))
                          (sent w ++ [login_request tenant email password])
                          (_token_cache w))
     /\ Auth.tenant_id token = tenant /\ user_email token = email)
  \/
  (exists e n,
     _request_token tenant email password w =
       (Raise e, mkWorld n (sent w ++ [login_request tenant email password])
                         (_token_cache w))
     /\ uncaught e
     /\ request_raises
          (network (length (sent w)) (login_request tenant email password)) e).
Proof.
  destruct (outcome_cases
              (network (length (sent w)) (login_request tenant email password)))
    as [Hf | [(data & Hs) | (e & Hr)]].
  - left. eexists. split; [apply (request_token_failed _ _ _ _ Hf)|]. auto.
  - left. pose proof Hs as (st & _ & _ & secs & Hsecs).
    eexists. split; [apply (request_token_success _ _ _ data secs _ Hs Hsecs)|].
    auto.
  - right. destruct (request_token_raises _ _ _ e w Hr) as (Hun & n & Heq).
    exists e, n. auto.
Qed.

(** C3: when the login request fails with a [RequestException] (transport
    failure, an error status rejected by [raise_for_status], or a body
    that is not JSON), [_request_token] does not raise: it returns the
    placeholder token ["dummy_token_<tenant>_<email>"], expiring one hour
    after the clock reading taken in the handler, with the arguments'
    tenant and email. *)
Theorem request_token_placeholder (tenant email password : string) (w : World) :
  request_failed (network (length (sent w)) (login_request tenant email password)) ->
  fst (_request_token tenant email password w) =
    Ok {| access_token := "dummy_token_" +:+ tenant +:+ "_" +:+ email;
          refresh_token := None;
          expires_at := Finite (clock (time_calls w) + 3600);
          tenant_id := tenant;
          user_email := email |}.
Proof.
  unfold AuthManager._request_token, try_except, bind, requests_post.
  intros [H | [(st & p & H & Hst) | (st & H)]]; rewrite H; simpl.
  - reflexivity.
  - unfold raise_for_status. apply status_check_true in Hst. rewrite Hst.
    reflexivity.
  - unfold raise_for_status.
    destruct ((400 <=? st) && (st <? 600)); reflexivity.
Qed.

(** C4 (amended): for a token whose [expires_at] is not NaN, [is_valid]
    always returns, and returns [True] iff the access token is non-empty
    and the clock reading is strictly before [expires_at]; so a token
    expired in the past is invalid, a non-empty token expiring in one hour
    is valid, and at [expires_at = now] the token is invalid. *)
Theorem is_valid_iff (self : AuthToken) (w : World) :
  expires_at self <> NaN ->
  let now := clock (time_calls w) in
  (exists b, fst (is_valid clock self w) = Ok b) /\
  (fst (is_valid clock self w) = Ok true <->
     access_token self <> "" /\ float_lt (Finite now) (expires_at self)) /\
  (float_lt (expires_at self) (Finite now) ->
     fst (is_valid clock self w) = Ok false) /\
  (access_token self <> "" -> expires_at self = Finite (now + 3600) ->
     fst (is_valid clock self w) = Ok true) /\
  (expires_at self = Finite now -> fst (is_valid clock self w) = Ok false).
Proof.
  intros Hnan now. subst now. rewrite is_valid_run.
  destruct (truthy (access_token self)) eqn:Ht; simpl.
  - apply truthy_true in Ht.
    destruct (fge (Finite (clock (time_calls w))) (expires_at self)) eqn:Hge;
      simpl.
    + assert (Hnot : ~ float_lt (Finite (clock (time_calls w))) (expires_at self)).
      { intros Hlt. assert (Hf : fge (Finite (clock (time_calls w)))
                                     (expires_at self) = false)
          by (apply fge_false; auto).
        congruence. }
      split; [eauto|]. split; [split; [discriminate | tauto]|].
      split; [auto|]. split; [|auto].
      intros _ He. rewrite He in Hnot. unfold float_lt in Hnot. lia.
    + apply fge_false in Hge as [Hge | Hge]; [contradiction|].
      split; [eauto|]. split; [split; auto|].
      split; [|split; [auto|]].
      * intros Hlt. destruct (expires_at self); unfold float_lt in *;
          try contradiction. lia.
      * intros He. rewrite He in Hge. unfold float_lt in Hge. lia.
  - apply truthy_false in Ht.
    split; [eauto|]. split; [split; [discriminate | tauto]|].
    split; [auto|]. split; [contradiction | auto].
Qed.

Lemma app_one_neq {A} (l : list A) (x : A) : (l ++ [x])%list <> l.
Proof.
  intros H. apply (f_equal length) in H.
  rewrite length_app in H. simpl in H. lia.
Qed.

(** The cache check never raises, sends nothing and never writes the
    cache; it yields an entry exactly under [cache_hit]. *)
Lemma check_cache_run (key : string * string) (force : bool) (w : World) :
  exists hit n,
    check_cache key force w = (Ok hit, mkWorld n (sent w) (_token_cache w)) /\
    (forall cached, hit = Some cached <->
                    AuthManager.cache_hit clock key force w cached) /\
    (force = true \/ _token_cache w !! key = None -> hit = None /\ n = time_calls w).
Proof.
  unfold AuthManager.check_cache, AuthManager.cache_hit.
  destruct w as [n0 log cache]; simpl.
  destruct force.
  { exists None, n0. split; [reflexivity|]. split; [|auto].
    intros c. split; [discriminate|]. intros [H _]. discriminate. }
  unfold bind at 1. unfold cache_lookup; simpl.
  destruct (cache !! key) as [c|] eqn:Hc.
  2:{ exists None, n0. split; [reflexivity|]. split; [|auto].
      intros c. split; [discriminate|]. intros (_ & H & _). discriminate. }
  unfold bind at 1. rewrite is_valid_run; simpl.
  destruct (truthy (access_token c)) eqn:Ht.
  2:{ apply truthy_false in Ht.
      exists None, n0. split; [reflexivity|]. split.
      - intros c'. split; [discriminate|].
        intros (_ & H & Hne & _). congruence.
      - intros [H|H]; discriminate. }
  apply truthy_true in Ht.
  destruct (fge (Finite (clock n0)) (expires_at c)) eqn:Hv; simpl.
  { exists None, (S n0). split; [reflexivity|]. split.
    - intros c'. split; [discriminate|].
      intros (_ & H & _ & Hlt & _). assert (c' = c) by congruence. subst.
      assert (fge (Finite (clock n0)) (expires_at c) = false)
        by (apply fge_false; auto).
      congruence.
    - intros [H|H]; discriminate. }
  unfold bind, time_time; simpl.
  destruct (flt (Finite (clock (S n0)))
                (fsub (expires_at c) (Finite EXPIRY_BUFFER_SECONDS))) eqn:Hb.
  - apply flt_float_lt in Hb.
    exists (Some c), (S (S n0)). split; [reflexivity|]. split.
    + intros c'. split.
      * intros H. inversion H; subst. repeat split; auto.
        apply fge_false in Hv as [Hv | Hv]; [|exact Hv].
        exfalso. exact (float_lt_not_nan _ _ _ Hb Hv).
      * intros (_ & H & _). congruence.
    + intros [H|H]; discriminate.
  - exists None, (S (S n0)). split; [reflexivity|]. split.
    + intros c'. split; [discriminate|].
      intros (_ & H & _ & _ & Hlt). assert (c' = c) by congruence. subst.
      apply flt_float_lt in Hlt. congruence.
    + intros [H|H]; discriminate.
Qed.

Lemma get_token_eq (tenant email password : string) (force : bool) (w : World) :
  get_token tenant email password force w =
  match check_cache (tenant, email) force w with
  | (Ok (Some cached), w1) => (Ok cached, w1)
  | (Ok None, w1) =>
      match _request_token tenant email password w1 with
      | (Ok token, w2) =>
          (Ok token, mkWorld (time_calls w2) (sent w2)
                             (<[(tenant, email) := token]> (_token_cache w2)))
      | (Raise e, w2) => (Raise e, w2)
      end
  | (Raise e, w1) => (Raise e, w1)
  end.
Proof.
  unfold AuthManager.get_token, bind.
  destruct (check_cache (tenant, email) force w) as [[[c|]|e] w1]; reflexivity.
Qed.

(** The three ways [get_token] ends.  It answers from the cache, sending
    nothing and leaving the cache as it was; or it sends the login request
    and stores the token that [_request_token] built; or it sends the
    login request and an exception of [_request_token] passes through,
    the cache being as it was. *)
Lemma get_token_cases (tenant email password : string) (force : bool) (w : World) :
  (exists cached n,
      AuthManager.cache_hit clock (tenant, email) force w cached /\
      get_token tenant email password force w =
        (Ok cached, mkWorld n (sent w) (_token_cache w)))
  \/
  (exists token n,
      (forall cached, ~ AuthManager.cache_hit clock (tenant, email) force w cached) /\
      get_token tenant email password force w =
        (Ok token, mkWorld (S n) (sent w ++ [login_request tenant email password])
                           (<[(tenant, email) := token]> (_token_cache w))) /\
      _request_token tenant email password
         (mkWorld n (sent w) (_token_cache w)) =
        (Ok token, mkWorld (S n) (sent w ++ [login_request tenant email password])
                           (_token_cache w)) /\
      (force = true \/ _token_cache w !! (tenant, email) = None -> n = time_calls w))
  \/
  (exists e n n',
      (forall cached, ~ AuthManager.cache_hit clock (tenant, email) force w cached) /\
      uncaught e /\
      request_raises
        (network (length (sent w)) (login_request tenant email password)) e /\
      get_token tenant email password force w =
        (Raise e, mkWorld n' (sent w ++ [login_request tenant email password])
                          (_token_cache w)) /\
      (force = true \/ _token_cache w !! (tenant, email) = None -> n = time_calls w)).
Proof.
  destruct (check_cache_run (tenant, email) force w) as (hit & n & Hrun & Hhit & Hmiss).
  rewrite get_token_eq, Hrun.
  destruct hit as [c|].
  - left. exists c, n. split; [apply Hhit; reflexivity | reflexivity].
  - right.
    assert (Hno : forall cached,
               ~ AuthManager.cache_hit clock (tenant, email) force w cached).
    { intros c Hc. apply Hhit in Hc. discriminate. }
    destruct (request_token_run tenant email password
                (mkWorld n (sent w) (_token_cache w)))
      as [(token & Hreq & _) | (e & n' & Hreq & Hun & Hr)];
      simpl in Hreq.
    + left. exists token, n. split; [exact Hno|].
      rewrite Hreq. split; [reflexivity|]. split; [reflexivity|].
      intros H. apply Hmiss in H. tauto.
    + right. exists e, n, n'. split; [exact Hno|]. split; [exact Hun|].
      split; [exact Hr|]. rewrite Hreq. split; [reflexivity|].
      intros H. apply Hmiss in H. tauto.
Qed.

(** Whatever [get_token] does, it sends nothing or the login request. *)
Lemma get_token_sent (tenant email password : string) (force : bool) (w : World) :
  (exists cached, AuthManager.cache_hit clock (tenant, email) force w cached) /\
  sent (snd (get_token tenant email password force w)) = sent w
  \/
  (forall cached, ~ AuthManager.cache_hit clock (tenant, email) force w cached) /\
  sent (snd (get_token tenant email password force w)) =
    (sent w ++ [login_request tenant email password])%list.
Proof.
  destruct (get_token_cases tenant email password force w)
    as [(c & n & Hc & Heq) | [(token & n & Hno & Heq & _)
                             | (e & n & n' & Hno & _ & _ & Heq & _)]];
    rewrite Heq; simpl; [left; eauto | right; auto | right; auto].
Qed.

(** C1 (amended): [get_token] sends nothing exactly when the cache check
    hits, and then it returns the cached entry.  Hence, when a call without
    forced refresh returned a token with a non-empty [access_token] and the
    two clock readings of the next call lie more than
    [EXPIRY_BUFFER_SECONDS] before its [expires_at], that next call returns
    the same token, sends no request and leaves the cache as it was. *)
Theorem get_token_twice_reuses (tenant email password : string) :
  (forall force w,
      (exists cached, AuthManager.cache_hit clock (tenant, email) force w cached) <->
      sent (snd (get_token tenant email password force w)) = sent w) /\
  (forall force w cached,
      AuthManager.cache_hit clock (tenant, email) force w cached ->
      fst (get_token tenant email password force w) = Ok cached) /\
  (forall w tok w1,
      get_token tenant email password false w = (Ok tok, w1) ->
      access_token tok <> "" ->
      float_lt (Finite (clock (time_calls w1)))
               (fsub (expires_at tok) (Finite EXPIRY_BUFFER_SECONDS)) ->
      float_lt (Finite (clock (S (time_calls w1))))
               (fsub (expires_at tok) (Finite EXPIRY_BUFFER_SECONDS)) ->
      fst (get_token tenant email password false w1) = Ok tok /\
      sent (snd (get_token tenant email password false w1)) = sent w1 /\
      _token_cache (snd (get_token tenant email password false w1)) = _token_cache w1).
Proof.
  assert (Hhit : forall force w cached,
            AuthManager.cache_hit clock (tenant, email) force w cached ->
            fst (get_token tenant email password force w) = Ok cached /\
            sent (snd (get_token tenant email password force w)) = sent w /\
            _token_cache (snd (get_token tenant email password force w)) = _token_cache w).
  { intros force w cached Hc.
    destruct (get_token_cases tenant email password force w)
      as [(c & n & Hc' & Heq) | [(token & n & Hno & _)
                                | (e & n & n' & Hno & _)]].
    - rewrite Heq; simpl. repeat split.
      destruct Hc as (_ & H1 & _), Hc' as (_ & H2 & _). congruence.
    - exfalso. exact (Hno cached Hc).
    - exfalso. exact (Hno cached Hc). }
  split; [|split].
  - intros force w. split.
    + intros [cached Hc]. apply (Hhit force w cached Hc).
    + intros Hsent.
      destruct (get_token_sent tenant email password force w)
        as [[Hc _] | [_ Heq]]; [exact Hc|].
      rewrite Heq in Hsent. exfalso. exact (app_one_neq _ _ Hsent).
  - intros force w cached Hc. apply (Hhit force w cached Hc).
  - intros w tok w1 Hfirst Hne Hr1 Hr2.
    apply Hhit. unfold AuthManager.cache_hit.
    split; [reflexivity|]. split; [|split; [exact Hne|split; [|exact Hr2]]].
    + destruct (get_token_cases tenant email password false w)
        as [(c & n & Hc & Heq) | [(token & n & _ & Heq & _)
                                 | (e & n & n' & _ & _ & _ & Heq & _)]];
        rewrite Heq in Hfirst; inversion Hfirst; subst; simpl.
      * destruct Hc as (_ & H & _). exact H.
      * apply lookup_insert_eq.
    + apply (float_lt_fsub _ EXPIRY_BUFFER_SECONDS); [|exact Hr1].
      unfold EXPIRY_BUFFER_SECONDS. lia.
Qed.

(** C6 (amended): with [force_refresh=True], [get_token] sends the login
    request whatever the cache holds.  When the request ends in a
    [RequestException] or in a JSON object whose ["expires_in"] can be
    added to the clock reading, the call returns the token
    [_request_token] built, and afterwards the cache maps
    [(tenant, email)] to that token, every other entry being as before. *)
Theorem get_token_force_refresh (tenant email password : string) (w : World) :
  let outcome :=
    network (length (sent w)) (login_request tenant email password) in
  sent (snd (get_token tenant email password true w)) =
    (sent w ++ [login_request tenant email password])%list /\
  (request_failed outcome \/ (exists data, request_succeeded outcome data) ->
   exists token,
     fst (_request_token tenant email password w) = Ok token /\
     get_token tenant email password true w =
       (Ok token, mkWorld (S (time_calls w))
                          (sent w ++ [login_request tenant email password])
                          (<[(tenant, email) := token]> (_token_cache w))) /\
     _token_cache (snd (get_token tenant email password true w)) !! (tenant, email)
       = Some token).
Proof.
  cbv zeta.
  assert (Hw : mkWorld (time_calls w) (sent w) (_token_cache w) = w)
    by (destruct w; reflexivity).
  destruct (get_token_cases tenant email password true w)
    as [(c & n & Hc & _) | [(token & n & _ & Heq & Hreq & Hn)
                           | (e & n & n' & _ & Hun & Hr & Heq & _)]].
  - destruct Hc as [Hc _]. discriminate.
  - rewrite (Hn (or_introl eq_refl)) in *. rewrite Hw in Hreq.
    split; [rewrite Heq; reflexivity|].
    intros _. exists token. split; [rewrite Hreq; reflexivity|].
    split; [exact Heq|]. rewrite Heq. simpl. apply lookup_insert_eq.
  - split; [rewrite Heq; reflexivity|].
    intros Hok. exfalso.
    destruct (request_token_raises _ _ _ e w Hr) as (_ & m & Hraise).
    destruct Hok as [Hf | (data & Hs)].
    + rewrite (request_token_failed _ _ _ _ Hf) in Hraise. discriminate.
    + pose proof Hs as (st & _ & _ & secs & Hsecs).
      rewrite (request_token_success _ _ _ data secs _ Hs Hsecs) in Hraise.
      discriminate.
Qed.

(** C7: [clear_cache] leaves an empty cache, and the [get_token] call that
    follows sends the login request, for every key, either value of
    [force_refresh] and every reply: nothing cached before the clear is
    reused.  When that call returns, the token is the one
    [_request_token] built from the reply, and it is the only entry of the
    cache. *)
Theorem clear_cache_then_get_token
    (tenant email password : string) (force : bool) (w : World) :
  let w0 := snd (AuthManager.clear_cache w) in
  _token_cache w0 = ∅ /\
  sent (snd (get_token tenant email password force w0)) =
    (sent w ++ [login_request tenant email password])%list /\
  forall token w',
    get_token tenant email password force w0 = (Ok token, w') ->
    fst (_request_token tenant email password w0) = Ok token /\
    _token_cache w' = <[(tenant, email) := token]> ∅.
Proof.
  simpl. split; [reflexivity|].
  set (w0 := mkWorld (time_calls w) (sent w) ∅).
  destruct (get_token_cases tenant email password force w0)
    as [(c & n & Hc & _) | [(token & n & _ & Heq & Hreq & Hn)
                           | (e & n & n' & _ & _ & _ & Heq & _)]].
  - destruct Hc as (_ & Hc & _). simpl in Hc. rewrite lookup_empty in Hc. discriminate.
  - assert (n = time_calls w0) as -> by (apply Hn; right; apply lookup_empty).
    rewrite Heq. split; [reflexivity|].
    intros token' w' [= <- <-]. split; [|reflexivity].
    subst w0; simpl in *. rewrite Hreq. reflexivity.
  - rewrite Heq. split; [reflexivity|]. discriminate.
Qed.

Abbreviation refresh := (AuthManager.refresh_token clock network api_base_url).

(** A refresh whose request succeeds: the new token is built from the
    body, stored under the old token's key and returned. *)
Lemma refresh_token_success (token : AuthToken) (r : string) (data : Body)
    (secs : pyfloat) (w : World) :
  Auth.refresh_token token = Some r ->
  r <> "" ->
  request_succeeded (network (length (sent w)) (refresh_request token r)) data ->
  expires_in data = inr secs ->
  let new_token :=
    {| access_token := default "" (j_access_token data);
       Auth.refresh_token := default (Some r) (j_refresh_token data);
       expires_at := fadd (Finite (clock (time_calls w))) secs;
       tenant_id := Auth.tenant_id token;
       user_email := user_email token |} in
  refresh token w =
    (Ok new_token,
     mkWorld (S (time_calls w)) (sent w ++ [refresh_request token r])
             (<[(Auth.tenant_id token, user_email token) := new_token]> (_token_cache w))).
Proof.
  intros Hr Hne (st & Hnet & Hst & _) Hsecs new_token. subst new_token.
  unfold AuthManager.refresh_token. rewrite Hr.
  apply truthy_true in Hne. rewrite Hne. simpl.
  unfold try_except, bind, requests_post. rewrite Hnet. simpl.
  unfold raise_for_status.
  apply status_check_false in Hst. rewrite Hst. simpl.
  unfold float_add. unfold expires_in in Hsecs. rewrite Hsecs. reflexivity.
Qed.

(** C5: without a refresh token ([None], and also the empty string, which
    [not token.refresh_token] treats alike) [refresh_token] raises
    [ValueError("No refresh token available")] and the world is untouched:
    nothing sent, cache as before.  With one, the refresh request is sent;
    when it succeeds the new token is stored under
    [(tenant_id, user_email)] and returned, and when it fails with a
    [RequestException] the old token is returned and the cache is as
    before. *)
Theorem refresh_token_spec (token : AuthToken) (w : World) :
  (Auth.refresh_token token = None \/ Auth.refresh_token token = Some "" ->
   refresh token w = (Raise (ValueError "No refresh token available"), w)) /\
  (forall r,
      Auth.refresh_token token = Some r ->
      r <> "" ->
      let req := refresh_request token r in
      let outcome := network (length (sent w)) req in
      (forall data,
          request_succeeded outcome data ->
          exists new_token,
            refresh token w =
              (Ok new_token,
               mkWorld (S (time_calls w)) (sent w ++ [req])
                       (<[(Auth.tenant_id token, user_email token) := new_token]>
                          (_token_cache w))) /\
            access_token new_token = default "" (j_access_token data) /\
            (forall secs, expires_in data = inr secs ->
               expires_at new_token = fadd (Finite (clock (time_calls w))) secs) /\
            Auth.tenant_id new_token = Auth.tenant_id token /\
            user_email new_token = user_email token) /\
      (request_failed outcome ->
       refresh token w =
         (Ok token, mkWorld (time_calls w) (sent w ++ [req]) (_token_cache w)))).
Proof.
  split.
  - unfold AuthManager.refresh_token. intros [H | H]; rewrite H; reflexivity.
  - intros r Hr Hne req outcome. split.
    + intros data Hok. pose proof Hok as (_ & _ & _ & secs & Hsecs).
      eexists. split.
      * apply (refresh_token_success token r data secs w Hr Hne Hok Hsecs).
      * simpl. repeat split; auto.
        intros secs' Hs'. congruence.
    + subst outcome req.
      unfold AuthManager.refresh_token. rewrite Hr.
      pose proof Hne as Ht. apply truthy_true in Ht. rewrite Ht. simpl.
      unfold try_except, bind, requests_post.
      intros [H | [(st & p & H & Hst) | (st & H)]]; rewrite H; simpl.
      * reflexivity.
      * unfold raise_for_status.
        apply status_check_true in Hst. rewrite Hst. reflexivity.
      * unfold raise_for_status.
        destruct ((400 <=? st) && (st <? 600)); reflexivity.
Qed.

(** C10: when the refresh request succeeds and the body has no
    ["refresh_token"] key, the token returned by [refresh_token] carries
    the old token's refresh token, so it can be refreshed again. *)
Theorem refresh_keeps_refresh_token
    (token : AuthToken) (r : string) (data : Body) (w : World) :
  Auth.refresh_token token = Some r ->
  r <> "" ->
  request_succeeded (network (length (sent w)) (refresh_request token r)) data ->
  j_refresh_token data = None ->
  exists new_token w',
    refresh token w = (Ok new_token, w') /\
    Auth.refresh_token new_token = Auth.refresh_token token /\
    truthy_opt (Auth.refresh_token new_token) = true.
Proof.
  intros Hr Hne Hok Hnone. pose proof Hok as (_ & _ & _ & secs & Hsecs).
  rewrite (refresh_token_success token r data secs w Hr Hne Hok Hsecs).
  eexists. eexists. split; [reflexivity|].
  simpl. rewrite Hnone, Hr. simpl.
  split; [reflexivity|]. apply truthy_true. exact Hne.
Qed.

End Facts.

(** ** Closed instances *)

Lemma request_token_placeholder_witness :
  fst (AuthManager._request_token clock_1000 net_down "http://api"
         "company1" "admin@company1.com" "password123" world0) =
    Ok {| access_token := "dummy_token_company1_admin@company1.com";
          Auth.refresh_token := None;
          expires_at := Finite 4600;
          tenant_id := "company1";
          user_email := "admin@company1.com" |}.
Proof.
  apply (request_token_placeholder clock_1000 net_down "http://api"
           "company1" "admin@company1.com" "password123" world0).
  left. reflexivity.
Defined.

(** C4, as stated, fails at a token whose [expires_at] is NaN: its access
    token is non-empty and the clock reading is not before [expires_at],
    yet [is_valid] returns [True], because [now >= nan] is [False]. *)
Lemma is_valid_nan_token :
  access_token nan_token <> "" /\
  ~ float_lt (Finite (clock_1000 (time_calls world0))) (expires_at nan_token) /\
  fst (is_valid clock_1000 nan_token world0) = Ok true.
Proof.
  split; [discriminate|]. split; [|reflexivity].
  intros H. exact H.
Qed.

(** Such a token is what a login reply with ["expires_in": NaN] gives. *)
Example request_token_nan :
  fst (AuthManager._request_token clock_1000
         (fun _ _ => Responded 200
            (Object {| j_access_token := Some "tok"; j_refresh_token := None;
                       j_expires_in := Some (JFloat NaN) |}))
         "http://api" "company1" "admin@company1.com" "password123" world0)
  = Ok nan_token.
Proof. reflexivity. Qed.

Lemma is_valid_iff_witness :
  fst (is_valid clock_1000 fetched_token world0) = Ok true.
Proof.
  destruct (is_valid_iff clock_1000 fetched_token world0) as (_ & Hiff & _).
  - discriminate.
  - apply Hiff. split; [discriminate|]. vm_compute. reflexivity.
Defined.

(** C1, as stated, fails: the endpoint answers 200 with a body that has no
    ["access_token"]; the first call stores a token expiring at 4600 while
    the clock reads 1000, and the second call sends a second request. *)
Lemma get_token_twice_empty_token_refetches :
  let get := AuthManager.get_token clock_1000 net_empty_body "http://api"
               "company1" "admin@company1.com" "password123" false in
  let w1 := snd (get world0) in
  exists tok,
    fst (get world0) = Ok tok /\
    _token_cache w1 !! ("company1", "admin@company1.com") = Some tok /\
    float_lt (Finite (clock_1000 (time_calls w1)))
             (fsub (expires_at tok) (Finite EXPIRY_BUFFER_SECONDS)) /\
    float_lt (Finite (clock_1000 (S (time_calls w1))))
             (fsub (expires_at tok) (Finite EXPIRY_BUFFER_SECONDS)) /\
    length (sent w1) = 1%nat /\
    length (sent (snd (get w1))) = 2%nat.
Proof.
  eexists. split; [vm_compute; reflexivity|].
  repeat split; vm_compute; reflexivity.
Qed.

(** A forced refresh over a valid cached entry, with the endpoint down: the
    request is sent and the placeholder token replaces the entry. *)
Example get_token_force_refresh_overwrites :
  let w := {| time_calls := 0; sent := [];
              _token_cache := <[("company1", "admin@company1.com") := fetched_token]> ∅ |} in
  let r := AuthManager.get_token clock_1000 net_down "http://api"
             "company1" "admin@company1.com" "password123" in
  fst (r false w) = Ok fetched_token /\
  length (sent (snd (r false w))) = 0%nat /\
  length (sent (snd (r true w))) = 1%nat /\
  access_token <$> (_token_cache (snd (r true w)) !! ("company1", "admin@company1.com"))
    = Some "dummy_token_company1_admin@company1.com".
Proof. repeat split; vm_compute; reflexivity. Qed.

Lemma get_token_twice_reuses_witness :
  let get := AuthManager.get_token clock_1000 net_token "http://api"
               "company1" "admin@company1.com" "password123" false in
  let w1 := snd (get world0) in
  fst (get w1) = Ok fetched_token /\
  sent (snd (get w1)) = sent w1 /\
  _token_cache (snd (get w1)) = _token_cache w1.
Proof.
  apply (proj2 (proj2 (get_token_twice_reuses clock_1000 net_token "http://api"
           "company1" "admin@company1.com" "password123")) world0).
  - vm_compute. reflexivity.
  - discriminate.
  - vm_compute. reflexivity.
  - vm_compute. reflexivity.
Defined.

(** C6, as stated, fails: a valid token is cached, the endpoint answers 200
    with ["expires_in": "3600"] (a string); the forced refresh sends the
    request, [time.time() + "3600"] raises [TypeError], and the cache
    entry is the old token, not a newly fetched one. *)
Lemma get_token_force_refresh_type_error :
  let w := {| time_calls := 0; sent := [];
              _token_cache := <[("company1", "admin@company1.com") := fetched_token]> ∅ |} in
  let r := AuthManager.get_token clock_1000 net_string_expires_in "http://api"
             "company1" "admin@company1.com" "password123" true w in
  fst r = Raise TypeError /\
  length (sent (snd r)) = 1%nat /\
  _token_cache (snd r) !! ("company1", "admin@company1.com") = Some fetched_token.
Proof. repeat split; vm_compute; reflexivity. Qed.

Lemma get_token_force_refresh_witness :
  let w := {| time_calls := 0; sent := [];
              _token_cache := <[("company1", "admin@company1.com") := refreshable_token]> ∅ |} in
  exists token,
    fst (AuthManager._request_token clock_1000 net_token "http://api"
           "company1" "admin@company1.com" "password123" w) = Ok token /\
    AuthManager.get_token clock_1000 net_token "http://api"
      "company1" "admin@company1.com" "password123" true w =
      (Ok token,
       mkWorld 1 [AuthManager.login_request "http://api"
                    "company1" "admin@company1.com" "password123"]
               (<[("company1", "admin@company1.com") := token]> (_token_cache w))) /\
    _token_cache
      (snd (AuthManager.get_token clock_1000 net_token "http://api"
              "company1" "admin@company1.com" "password123" true w))
      !! ("company1", "admin@company1.com") = Some token.
Proof.
  intros w.
  apply (proj2 (get_token_force_refresh clock_1000 net_token "http://api"
                  "company1" "admin@company1.com" "password123" w)).
  right. eexists. exists 200. split; [reflexivity|]. split; [lia|].
  eexists. reflexivity.
Defined.

Lemma refresh_token_spec_witness :
  AuthManager.refresh_token clock_1000 net_down "http://api" refreshable_token world0 =
    (Ok refreshable_token,
     mkWorld 0 [AuthManager.refresh_request "http://api" refreshable_token "r1"] ∅).
Proof.
  apply (proj2 (refresh_token_spec clock_1000 net_down "http://api"
                  refreshable_token world0) "r1").
  - reflexivity.
  - discriminate.
  - left. reflexivity.
Defined.

Lemma refresh_keeps_refresh_token_witness :
  exists new_token w',
    AuthManager.refresh_token clock_1000 net_token "http://api"
      refreshable_token world0 = (Ok new_token, w') /\
    Auth.refresh_token new_token = Some "r1" /\
    truthy_opt (Auth.refresh_token new_token) = true.
Proof.
  apply (refresh_keeps_refresh_token clock_1000 net_token "http://api"
           refreshable_token "r1"
           {| j_access_token := Some "tok"; j_refresh_token := None;
              j_expires_in := Some (JInt 7200) |} world0).
  - reflexivity.
  - discriminate.
  - exists 200. split; [reflexivity|]. split; [lia|]. eexists. reflexivity.
  - reflexivity.
Defined.

End AuthFacts.

Module ApiClientFacts.

Import ApiClient.

Lemma header_alter_insert (self : APIClient) (h : Heap) (hd : gmap string string)
    (key value k : string) :
  h !! headers self = Some hd ->
  alter (insert key value) (headers self) h !! headers self ≫= (fun d => d !! k) =
  if decide (key = k) then Some value else header self h k.
Proof.
  intros Hh. unfold header. rewrite lookup_alter_eq, Hh. simpl.
  rewrite lookup_insert. reflexivity.
Qed.

(** C9: [set_token] and [set_tenant] write into the dict object the client
    already holds (the reference in [self.headers] stays the same and every
    other object of the heap is as before).  [set_token t] sets
    ["Authorization"] to ["Bearer t"] and leaves every other header,
    [tenant_id], [base_url] and the session as they were; [set_tenant id]
    sets [tenant_id] and ["X-Tenant-ID"] to [id] and leaves every other
    header, [base_url] and the session as they were. *)
Theorem set_token_set_tenant_frame
    (self : APIClient) (h : Heap) (hd : gmap string string) (t id : string) :
  h !! headers self = Some hd ->
  (let self' := fst (set_token self t h) in
   let h' := snd (set_token self t h) in
   headers self' = headers self /\
   (forall l, l <> headers self -> h' !! l = h !! l) /\
   header self' h' "Authorization" = Some ("Bearer " +:+ t) /\
   (forall k, k <> "Authorization" -> header self' h' k = header self h k) /\
   header self' h' "X-Tenant-ID" = header self h "X-Tenant-ID" /\
   header self' h' "Content-Type" = header self h "Content-Type" /\
   tenant_id self' = tenant_id self /\
   base_url self' = base_url self /\
   session self' = session self) /\
  (let self' := fst (set_tenant self id h) in
   let h' := snd (set_tenant self id h) in
   headers self' = headers self /\
   (forall l, l <> headers self -> h' !! l = h !! l) /\
   tenant_id self' = id /\
   header self' h' "X-Tenant-ID" = Some id /\
   (forall k, k <> "X-Tenant-ID" -> header self' h' k = header self h k) /\
   header self' h' "Authorization" = header self h "Authorization" /\
   header self' h' "Content-Type" = header self h "Content-Type" /\
   base_url self' = base_url self /\
   session self' = session self).
Proof.
  intros Hh. unfold set_token, set_tenant.
  split.
  - split; [reflexivity|]. split.
    { intros l Hl. apply lookup_alter_ne. congruence. }
    assert (Hk : forall k,
               header self (alter (insert "Authorization" ("Bearer " +:+ t))
                                  (headers self) h) k =
               if decide ("Authorization" = k) then Some ("Bearer " +:+ t)
               else header self h k).
    { intros k. apply (header_alter_insert self h hd _ _ k Hh). }
    repeat split; try (rewrite Hk; reflexivity).
    intros k Hne. rewrite Hk. destruct (decide ("Authorization" = k)); congruence.
  - simpl. split; [reflexivity|]. split.
    { intros l Hl. apply lookup_alter_ne. congruence. }
    split; [reflexivity|].
    assert (Hk : forall k,
               header {| base_url := base_url self; tenant_id := id;
                         headers := headers self; session := session self |}
                      (alter (insert "X-Tenant-ID" id) (headers self) h) k =
               if decide ("X-Tenant-ID" = k) then Some id else header self h k).
    { intros k. apply (header_alter_insert self h hd _ _ k Hh). }
    repeat split; try (rewrite Hk; reflexivity).
    intros k Hne. rewrite Hk. destruct (decide ("X-Tenant-ID" = k)); congruence.
Qed.

(** The retry configuration [__init__] mounts on both prefixes. *)
Lemma init_retry_configuration (base_url token tenant_id : string) (h : Heap) :
  forall prefix r,
    In (prefix, r) (session (fst (__init__ base_url token tenant_id h))) ->
    total r = 3 /\ backoff_factor r = 1 /\
    status_forcelist r = [429; 500; 502; 503; 504].
Proof.
  simpl. intros prefix r [H | [H | []]]; inversion H; subst; auto.
Qed.

(** [__init__] allocates the header dict with the three headers, and
    strips the trailing slashes of the base URL. *)
Lemma init_headers (base_url token tenant_id : string) (h : Heap) :
  let self := fst (__init__ base_url token tenant_id h) in
  let h' := snd (__init__ base_url token tenant_id h) in
  h !! headers self = None /\
  header self h' "Authorization" = Some ("Bearer " +:+ token) /\
  header self h' "X-Tenant-ID" = Some tenant_id /\
  header self h' "Content-Type" = Some "application/json" /\
  ApiClient.tenant_id self = tenant_id.
Proof.
  simpl. split.
  - apply not_elem_of_dom. apply is_fresh.
  - unfold header. simpl. rewrite lookup_insert_eq. simpl.
    repeat split; reflexivity.
Qed.

Lemma set_token_set_tenant_frame_witness :
  let self := fst test_client in
  let h := snd test_client in
  header self (snd (set_token self "new_token" h)) "Authorization"
    = Some "Bearer new_token" /\
  header self (snd (set_token self "new_token" h)) "X-Tenant-ID"
    = header self h "X-Tenant-ID" /\
  tenant_id (fst (set_tenant self "company2" h)) = "company2" /\
  header (fst (set_tenant self "company2" h)) (snd (set_tenant self "company2" h))
         "Authorization" = header self h "Authorization".
Proof.
  intros self h.
  destruct (set_token_set_tenant_frame self h test_headers "new_token" "company2")
    as [Htoken Htenant].
  { reflexivity. }
  destruct Htoken as (_ & _ & Hauth & _ & Hx & _).
  destruct Htenant as (_ & _ & Hid & _ & _ & Hauth' & _).
  repeat split; assumption.
Defined.

End ApiClientFacts.

Module DashboardFacts.

Import Dashboard.

Lemma prefix_append (p s : string) :
  starts_with p s = true <-> exists t, s = p +:+ t.
Proof.
  revert s. induction p as [|a p IH]; intros s; simpl.
  - split; [intros _; exists s; reflexivity | reflexivity].
  - destruct s as [|b s].
    + split; [discriminate | intros [t Ht]; discriminate].
    + rewrite andb_true_iff, Ascii.eqb_eq, IH.
      split.
      * intros [-> [t ->]]. exists t. reflexivity.
      * intros [t Ht]. inversion Ht; subst. split; [reflexivity | exists t; reflexivity].
Qed.

(** The [in] test decides the substring relation. *)
Lemma str_in_substring (needle haystack : string) :
  str_in needle haystack = true <-> is_substring needle haystack.
Proof.
  unfold is_substring. split.
  - induction haystack as [|c rest IH]; simpl;
      rewrite orb_true_iff; intros [Hp | Hr]; try discriminate.
    + apply prefix_append in Hp as [t Ht]. exists "", t. exact Ht.
    + apply prefix_append in Hp as [t Ht]. exists "", t. exact Ht.
    + destruct (IH Hr) as (before & after & Heq).
      exists (String c before), after. rewrite Heq. reflexivity.
  - intros (before & after & Heq). revert haystack Heq.
    induction before as [|c before IH]; intros haystack Heq.
    + destruct haystack; simpl; apply orb_true_iff; left;
        apply prefix_append; exists after; exact Heq.
    + subst haystack.
      change (str_in needle (String c (before +:+ needle +:+ after)) = true).
      simpl. apply orb_true_iff. right.
      apply IH. reflexivity.
Qed.

Lemma str_in_not_substring (needle haystack : string) :
  str_in needle haystack = false <-> ~ is_substring needle haystack.
Proof.
  rewrite <- str_in_substring.
  destruct (str_in needle haystack); split; intros; congruence.
Qed.

(** The loop returns [True] exactly when no card's text has the marker,
    and then it has read every card. *)
Lemma scan_cards_true (excluded : string) (cards : list Card) (k : nat) :
  fst (scan_cards excluded cards k) = true <->
  Forall (fun card => ~ is_substring excluded (card_text card)) cards.
Proof.
  revert k. induction cards as [|card rest IH]; intros k; simpl.
  - split; [constructor | reflexivity].
  - fold (card_text card).
    destruct (str_in excluded (card_text card)) eqn:Hin; simpl.
    + split; [discriminate|].
      intros H. inversion H as [|? ? Hc _]; subst.
      apply str_in_substring in Hin. contradiction.
    + rewrite IH. apply str_in_not_substring in Hin.
      split; [intros H; constructor; assumption
             | intros H; inversion H; assumption].
Qed.

Lemma scan_cards_all_read (excluded : string) (cards : list Card) (k : nat) :
  fst (scan_cards excluded cards k) = true ->
  snd (scan_cards excluded cards k) = (k + length cards)%nat.
Proof.
  revert k. induction cards as [|card rest IH]; intros k; simpl.
  - intros _. lia.
  - destruct (str_in excluded (default "" (text_content card))); simpl.
    + discriminate.
    + intros H. rewrite (IH _ H). lia.
Qed.

(** The loop returns [False] at the first card whose text has the marker:
    the cards after it are not read. *)
Lemma scan_cards_false (excluded : string) (cards : list Card) (k : nat) :
  fst (scan_cards excluded cards k) = false ->
  exists before card after,
    cards = (before ++ card :: after)%list /\
    Forall (fun c => ~ is_substring excluded (card_text c)) before /\
    is_substring excluded (card_text card) /\
    snd (scan_cards excluded cards k) = (k + S (length before))%nat.
Proof.
  revert k. induction cards as [|card rest IH]; intros k; simpl.
  - discriminate.
  - fold (card_text card).
    destruct (str_in excluded (card_text card)) eqn:Hin; simpl.
    + intros _. exists [], card, rest. simpl.
      apply str_in_substring in Hin.
      repeat split; [constructor | assumption | lia].
    + intros H. destruct (IH _ H) as (before & c & after & Heq & Hb & Hc & Hn).
      exists (card :: before), c, after. simpl.
      apply str_in_not_substring in Hin.
      repeat split; [congruence | constructor; assumption | assumption | lia].
Qed.

(** C8: once the page's network is idle, [verify_no_cross_tenant_data]
    returns; it returns [True] iff no project card's text contains the
    excluded tenant's marker as a substring, having read every card; and
    it returns [False] at the first card that contains it, reading no card
    after that one.  (If the wait times out, the method raises instead.) *)
Theorem verify_no_cross_tenant_data_scan (page : Page) (excluded : string) :
  (network_idle page = false ->
   verify_no_cross_tenant_data page excluded = TimeoutError) /\
  (network_idle page = true ->
   let cards := project_cards page in
   exists b,
     verify_no_cross_tenant_data page excluded = Ok b /\
     (b = true <->
      forall card, In card cards -> ~ is_substring excluded (card_text card)) /\
     (b = true -> snd (scan_cards excluded cards 0) = length cards) /\
     (b = false ->
      exists before card after,
        cards = (before ++ card :: after)%list /\
        (forall c, In c before -> ~ is_substring excluded (card_text c)) /\
        is_substring excluded (card_text card) /\
        snd (scan_cards excluded cards 0) = S (length before))).
Proof.
  unfold verify_no_cross_tenant_data, wait_for_network_idle.
  split; intros Hidle; rewrite Hidle; [reflexivity|].
  cbv zeta.
  exists (fst (scan_cards excluded (project_cards page) 0)).
  split; [reflexivity|]. split; [|split].
  - rewrite scan_cards_true, List.Forall_forall. reflexivity.
  - intros H. apply (scan_cards_all_read _ _ 0%nat H).
  - intros H.
    destruct (scan_cards_false _ _ 0%nat H) as (before & c & after & Heq & Hb & Hc & Hn).
    exists before, c, after. rewrite List.Forall_forall in Hb. auto.
Qed.

Lemma verify_no_cross_tenant_data_scan_witness :
  network_idle company1_page = true /\
  exists b,
    verify_no_cross_tenant_data company1_page "Company2" = Ok b /\
    (b = true <->
     forall card, In card (project_cards company1_page) ->
                  ~ is_substring "Company2" (card_text card)).
Proof.
  split; [reflexivity|].
  destruct (proj2 (verify_no_cross_tenant_data_scan company1_page "Company2") eq_refl)
    as (b & Hb & Hiff & _).
  exists b. split; assumption.
Defined.

(** On [company1_page] the scan stops at the third card for the marker
    ["Hiring"], and at the first for ["Roadmap"]. *)
Example scan_cards_company1 :
  scan_cards "Company2" (project_cards company1_page) 0 = (true, 3%nat) /\
  scan_cards "Hiring" (project_cards company1_page) 0 = (false, 3%nat) /\
  scan_cards "Roadmap" (project_cards company1_page) 0 = (false, 1%nat) /\
  scan_cards "" (project_cards company1_page) 0 = (false, 1%nat).
Proof. repeat split. Qed.

End DashboardFacts.

Module ConfigFacts.

Import Config.

Section Facts.

Variable environ : gmap string string.

Lemma Environment_of_value_cases (v : string) :
  (Environment_of_value v = Some LOCAL <-> v = "local") /\
  (Environment_of_value v = Some STAGING <-> v = "staging") /\
  (Environment_of_value v = Some PRODUCTION <-> v = "production").
Proof.
  unfold Environment_of_value.
  destruct (String.eqb_spec v "local") as [->|H1]; simpl.
  { repeat split; intros; congruence. }
  destruct (String.eqb_spec v "staging") as [->|H2]; simpl.
  { repeat split; intros; congruence. }
  destruct (String.eqb_spec v "production") as [->|H3]; simpl.
  { repeat split; intros; congruence. }
  repeat split; intros; congruence.
Qed.

(** X1: [get_environment] never fails: it is [LOCAL] or [PRODUCTION] exactly
    when the lower-cased [TEST_ENV] is ["local"] or ["production"], and
    [STAGING] in every other case, an unset or unrecognised variable
    included. *)
Theorem get_environment_fallback :
  (environ !! ENV_KEY = None -> get_environment environ = STAGING) /\
  (forall v, environ !! ENV_KEY = Some v ->
     (get_environment environ = LOCAL <-> lower v = "local") /\
     (get_environment environ = PRODUCTION <-> lower v = "production") /\
     (get_environment environ = STAGING <->
        lower v <> "local" /\ lower v <> "production")).
Proof.
  unfold get_environment, getenv_default. split.
  - intros ->. reflexivity.
  - intros v ->. simpl.
    destruct (Environment_of_value_cases (lower v)) as (Hl & Hs & Hp).
    destruct (Environment_of_value (lower v)) as [[| |]|] eqn:E.
    + assert (lower v = "local") as -> by (apply Hl; reflexivity).
      repeat split; intros; try congruence. destruct H; congruence.
    + assert (lower v = "staging") as -> by (apply Hs; reflexivity).
      repeat split; intros; congruence.
    + assert (lower v = "production") as -> by (apply Hp; reflexivity).
      repeat split; intros; try congruence. destruct H; congruence.
    + split; [|split].
      * split; [discriminate | intros H; apply Hl in H; discriminate].
      * split; [discriminate | intros H; apply Hp in H; discriminate].
      * split; [|reflexivity].
        intros _. split; intros H; [apply Hl in H | apply Hp in H]; discriminate.
Qed.

Lemma TENANTS_lookup (id : string) (t : TenantConfig) :
  TENANTS environ !! id = Some t ->
  (id = "company1" \/ id = "company2" \/ id = "company3") /\
  tenant_id t = id /\ subdomain t = id /\
  admin_email t = "admin@" +:+ id +:+ ".com".
Proof.
  unfold TENANTS.
  rewrite lookup_insert. case_decide as H1.
  { subst id. intros [= <-]. simpl. auto. }
  rewrite lookup_insert. case_decide as H2.
  { subst id. intros [= <-]. simpl. auto. }
  rewrite lookup_insert. case_decide as H3.
  { subst id. intros [= <-]. simpl. auto 6. }
  rewrite lookup_empty. discriminate.
Qed.

Lemma TENANTS_registered (id : string) :
  id = "company1" \/ id = "company2" \/ id = "company3" ->
  is_Some (TENANTS environ !! id).
Proof.
  intros [-> | [-> | ->]]; unfold TENANTS.
  - rewrite lookup_insert_eq. eauto.
  - rewrite lookup_insert_ne by discriminate. rewrite lookup_insert_eq. eauto.
  - do 2 (rewrite lookup_insert_ne by discriminate).
    rewrite lookup_insert_eq. eauto.
Qed.

Lemma get_tenant_registered (id : string) :
  id = "company1" \/ id = "company2" \/ id = "company3" ->
  exists t, get_tenant environ id = Ok t /\
            tenant_id t = id /\ subdomain t = id /\
            admin_email t = "admin@" +:+ id +:+ ".com".
Proof.
  intros H. unfold get_tenant.
  destruct (TENANTS_registered id H) as [t Ht]. rewrite Ht.
  destruct (TENANTS_lookup id t Ht) as (_ & H1 & H2 & H3).
  exists t. auto.
Qed.

Lemma get_tenant_unregistered (id : string) :
  ~ (id = "company1" \/ id = "company2" \/ id = "company3") ->
  get_tenant environ id = ValueError ("Unknown tenant: " +:+ id).
Proof.
  intros H. unfold get_tenant.
  destruct (TENANTS environ !! id) as [t|] eqn:E; [|reflexivity].
  destruct (TENANTS_lookup id t E) as (Hreg & _). contradiction.
Qed.

(** X2: [get_tenant] succeeds exactly for the three registered ids, and the
    record it returns carries the id it was asked for (as [tenant_id] and
    [subdomain]) and the admin email [admin@<id>.com]; any other id raises
    [ValueError("Unknown tenant: <id>")]. *)
Theorem get_tenant_registry (id : string) :
  let registered := id = "company1" \/ id = "company2" \/ id = "company3" in
  (registered <->
   exists t, get_tenant environ id = Ok t /\
             tenant_id t = id /\ subdomain t = id /\
             admin_email t = "admin@" +:+ id +:+ ".com") /\
  (~ registered <->
   get_tenant environ id = ValueError ("Unknown tenant: " +:+ id)).
Proof.
  cbv zeta. split; split.
  - apply get_tenant_registered.
  - intros (t & Ht & _). unfold get_tenant in Ht.
    destruct (TENANTS environ !! id) as [t'|] eqn:E; [|discriminate].
    apply (TENANTS_lookup id t' E).
  - apply get_tenant_unregistered.
  - intros Hv Hreg. apply get_tenant_registered in Hreg as (t & Ht & _).
    congruence.
Qed.

(** X3: Two different registered tenants have the same [base_url] exactly in
    the [LOCAL] environment (where every tenant is served from
    [http://localhost:3000]); on staging and production their URLs
    differ. *)
Theorem base_url_distinct (id1 id2 : string) (t1 t2 : TenantConfig) :
  get_tenant environ id1 = Ok t1 ->
  get_tenant environ id2 = Ok t2 ->
  id1 <> id2 ->
  (base_url environ t1 = base_url environ t2 <-> get_environment environ = LOCAL).
Proof.
  unfold get_tenant. intros H1 H2 Hne.
  destruct (TENANTS environ !! id1) as [t1'|] eqn:E1; [|discriminate].
  destruct (TENANTS environ !! id2) as [t2'|] eqn:E2; [|discriminate].
  injection H1 as ->. injection H2 as ->.
  destruct (TENANTS_lookup id1 t1 E1) as (Hr1 & _ & Hs1 & _).
  destruct (TENANTS_lookup id2 t2 E2) as (Hr2 & _ & Hs2 & _).
  unfold base_url. rewrite Hs1, Hs2.
  destruct (get_environment environ).
  - split; reflexivity.
  - split; [|discriminate]. intros H. exfalso.
    destruct Hr1 as [-> | [-> | ->]], Hr2 as [-> | [-> | ->]];
      try congruence; vm_compute in H; discriminate.
  - split; [|discriminate]. intros H. exfalso.
    destruct Hr1 as [-> | [-> | ->]], Hr2 as [-> | [-> | ->]];
      try congruence; vm_compute in H; discriminate.
Qed.

(** X4: [get_browserstack_config] returns a configuration exactly when both
    BrowserStack variables are set to non-empty strings, and then it
    carries these two values with the default project and build names;
    with either one unset or empty it returns [None]. *)
Theorem get_browserstack_config_present :
  (forall u k,
      environ !! BS_USERNAME_KEY = Some u -> u <> "" ->
      environ !! BS_ACCESS_KEY = Some k -> k <> "" ->
      get_browserstack_config environ =
        Some {| username := u; access_key := k;
                project_name := "WorkFlow Pro Tests";
                build_name := "Automated Tests" |}) /\
  (get_browserstack_config environ = None <->
   (environ !! BS_USERNAME_KEY = None \/ environ !! BS_USERNAME_KEY = Some "" \/
    environ !! BS_ACCESS_KEY = None \/ environ !! BS_ACCESS_KEY = Some "")).
Proof.
  unfold get_browserstack_config, getenv. split.
  - intros u k -> Hu -> Hk. simpl.
    apply truthy_true in Hu, Hk. rewrite Hu, Hk. reflexivity.
  - destruct (environ !! BS_USERNAME_KEY) as [u|]; simpl.
    2:{ split; auto. }
    destruct (truthy u) eqn:Hu; simpl.
    2:{ apply truthy_false in Hu. subst u. split; auto. }
    apply truthy_true in Hu.
    destruct (environ !! BS_ACCESS_KEY) as [k|]; simpl.
    2:{ split; auto. }
    destruct (truthy k) eqn:Hk; simpl.
    2:{ apply truthy_false in Hk. subst k. split; auto. }
    apply truthy_true in Hk.
    split; [discriminate|].
    intros [H | [H | [H | H]]]; congruence.
Qed.

(** X5: The browser runs headless when [HEADLESS] is unset or is ["true"] in
    any letter case, and only then; every other value (["1"], ["yes"],
    the empty string) turns headless mode off, and with it [slow_mo]
    becomes 100 instead of 0. *)
Theorem launch_options_headless :
  let options := get_browser_launch_options environ in
  (headless options = true <->
   environ !! HEADLESS_KEY = None \/
   exists v, environ !! HEADLESS_KEY = Some v /\ lower v = "true") /\
  (headless options = true -> slow_mo options = 0) /\
  (headless options = false -> slow_mo options = 100).
Proof.
  unfold get_browser_launch_options, is_headless, getenv_default. simpl.
  split; [|split].
  - destruct (environ !! HEADLESS_KEY) as [v|]; simpl.
    + rewrite String.eqb_eq. split.
      * intros H. right. exists v. auto.
      * intros [H | (v' & [= <-] & H)]; [discriminate | exact H].
    + split; auto.
  - intros ->. reflexivity.
  - intros ->. reflexivity.
Qed.

End Facts.

Lemma base_url_distinct_witness :
  base_url ∅ {| tenant_id := "company1"; subdomain := "company1";
                admin_email := "admin@company1.com";
                admin_password := "password123" |} =
  base_url ∅ {| tenant_id := "company2"; subdomain := "company2";
                admin_email := "admin@company2.com";
                admin_password := "password123" |}
  <-> get_environment ∅ = LOCAL.
Proof.
  apply (base_url_distinct ∅ "company1" "company2").
  - reflexivity.
  - reflexivity.
  - discriminate.
Defined.

End ConfigFacts.

Module AuthExtraFacts.

Import Auth.

#[local] Arguments fge : simpl never.
#[local] Arguments flt : simpl never.
#[local] Arguments fsub : simpl never.
#[local] Arguments fadd : simpl never.
#[local] Arguments float_lt : simpl never.

Section Facts.

Variable clock : nat -> Z.
Variable network : nat -> Request -> Outcome.
Variable api_base_url : string.
Variable environ : gmap string string.

Abbreviation get_token := (AuthManager.get_token clock network api_base_url).
Abbreviation _request_token := (AuthManager._request_token clock network api_base_url).
Abbreviation login_request := (AuthManager.login_request api_base_url).
Abbreviation refresh_request := (AuthManager.refresh_request api_base_url).
Abbreviation refresh := (AuthManager.refresh_token clock network api_base_url).
Abbreviation get_auth_headers :=
  (AuthManager.get_auth_headers clock network api_base_url).
Abbreviation get_tenant_auth :=
  (AuthManager.get_tenant_auth clock network api_base_url environ).

(** What [get_token] leaves behind when it returns, and when it raises. *)
Lemma get_token_post (tenant email password : string) (force : bool) (w : World) :
  (exists token w',
     get_token tenant email password force w = (Ok token, w') /\
     _token_cache w' !! (tenant, email) = Some token /\
     (forall key, key <> (tenant, email) ->
                  _token_cache w' !! key = _token_cache w !! key) /\
     (_token_cache w' = _token_cache w \/
      (Auth.tenant_id token = tenant /\ user_email token = email)) /\
     (sent w' = sent w \/
      sent w' = (sent w ++ [login_request tenant email password])%list))
  \/
  (exists e w',
     get_token tenant email password force w = (Raise e, w') /\
     uncaught e /\
     request_raises
       (network (length (sent w)) (login_request tenant email password)) e /\
     (forall cached,
        ~ AuthManager.cache_hit clock (tenant, email) force w cached) /\
     _token_cache w' = _token_cache w /\
     sent w' = (sent w ++ [login_request tenant email password])%list).
Proof.
  destruct (AuthFacts.get_token_cases clock network api_base_url
              tenant email password force w)
    as [(c & n & Hc & Heq) | [(token & n & _ & Heq & Hreq & _)
                             | (e & n & n' & Hno & Hun & Hr & Heq & _)]].
  - left. exists c, (mkWorld n (sent w) (_token_cache w)).
    destruct Hc as (_ & Hc & _). simpl. auto 6.
  - left. eexists. eexists. split; [exact Heq|]. simpl.
    split; [apply lookup_insert_eq|].
    split; [intros key Hk; apply lookup_insert_ne; congruence|].
    split; [|auto].
    right.
    destruct (AuthFacts.request_token_run clock network api_base_url
                tenant email password (mkWorld n (sent w) (_token_cache w)))
      as [(token' & Hreq' & Ht & He) | (e & m & Hreq' & _)];
      rewrite Hreq in Hreq'; [|discriminate].
    injection Hreq' as <-. auto.
  - right. eexists. eexists. split; [exact Heq|]. simpl. auto.
Qed.



(** What [refresh_token] does to the cache: nothing, or one store under
    the old token's key of a token with the same tenant and email. *)
Lemma refresh_cache (token : AuthToken) (w : World) :
  _token_cache (snd (refresh token w)) = _token_cache w \/
  exists new_token,
    Auth.tenant_id new_token = Auth.tenant_id token /\
    user_email new_token = user_email token /\
    _token_cache (snd (refresh token w)) =
      <[(Auth.tenant_id token, user_email token) := new_token]> (_token_cache w).
Proof.
  unfold AuthManager.refresh_token.
  destruct (Auth.refresh_token token) as [r|]; [|left; reflexivity].
  destruct (truthy r); simpl; [|left; reflexivity].
  unfold try_except, bind, requests_post.
  destruct (network _ _) as [|st p]; simpl; [left; reflexivity|].
  unfold raise_for_status.
  destruct ((400 <=? st) && (st <? 600)); simpl; [left; reflexivity|].
  destruct p as [| |data]; simpl; [left; reflexivity | left; reflexivity |].
  unfold float_add.
  destruct (seconds_of _) as [e|secs]; simpl.
  - destruct e; left; reflexivity.
  - right. eexists. split; [|split]; [| |reflexivity]; reflexivity.
Qed.

Lemma cache_consistent_insert (w : World) (token : AuthToken) (n : nat)
    (log : list Request) :
  cache_consistent w ->
  cache_consistent
    (mkWorld n log
       (<[(Auth.tenant_id token, user_email token) := token]> (_token_cache w))).
Proof.
  intros Hw key tok. simpl. rewrite lookup_insert.
  case_decide as Hk.
  - intros [= <-]. congruence.
  - apply Hw.
Qed.

(** X7: The cache invariant: when every entry sits under the key
    [(tenant_id, user_email)] of its own token, it still does after
    [get_token], [refresh_token], [invalidate_token] and [clear_cache]. *)
Theorem cache_consistent_preserved (w : World) :
  cache_consistent w ->
  (forall tenant email password force,
      cache_consistent (snd (get_token tenant email password force w))) /\
  (forall token, cache_consistent (snd (refresh token w))) /\
  (forall tenant email,
      cache_consistent (snd (AuthManager.invalidate_token tenant email w))) /\
  cache_consistent (snd (AuthManager.clear_cache w)).
Proof.
  intros Hw. split; [|split; [|split]].
  - intros tenant email password force.
    destruct (get_token_post tenant email password force w)
      as [(token & w' & Heq & Hkey & Hother & Hfields & _)
         | (e & w' & Heq & _ & _ & _ & Hc & _)].
    + rewrite Heq. simpl. intros key tok Hl.
      destruct (decide (key = (tenant, email))) as [->|Hne].
      * rewrite Hkey in Hl. injection Hl as <-.
        destruct Hfields as [Hsame | [<- <-]]; [|reflexivity].
        apply Hw. rewrite <- Hsame. exact Hkey.
      * rewrite (Hother key Hne) in Hl. apply Hw. exact Hl.
    + rewrite Heq. simpl. intros key tok. rewrite Hc. apply Hw.
  - intros token.
    destruct (refresh_cache token w) as [Hsame | (new_token & Ht & He & Hins)].
    + intros key tok. rewrite Hsame. apply Hw.
    + intros key tok. rewrite Hins. rewrite <- Ht, <- He.
      apply (cache_consistent_insert w new_token 0%nat [] Hw key tok).
  - intros tenant email. unfold AuthManager.invalidate_token.
    destruct (_token_cache w !! (tenant, email)); simpl; [|exact Hw].
    intros key tok. simpl. rewrite lookup_delete.
    case_decide; [discriminate | apply Hw].
  - intros key tok. simpl. rewrite lookup_empty. discriminate.
Qed.

(** X8: The password is not part of the cache key: when the cache check
    hits, [get_token] returns the cached token whatever password is
    passed, and sends nothing. *)
Theorem get_token_hit_ignores_password
    (tenant email password password' : string) (w : World) (cached : AuthToken) :
  AuthManager.cache_hit clock (tenant, email) false w cached ->
  get_token tenant email password false w =
    get_token tenant email password' false w /\
  fst (get_token tenant email password' false w) = Ok cached /\
  sent (snd (get_token tenant email password' false w)) = sent w.
Proof.
  intros Hhit.
  destruct (AuthFacts.check_cache_run clock (tenant, email) false w)
    as (hit & n & Hrun & Hiff & _).
  apply Hiff in Hhit. subst hit.
  rewrite !AuthFacts.get_token_eq, Hrun. simpl. auto.
Qed.

(** X9: [invalidate_token] never raises and sends nothing; it removes the
    entry of [(tenant, email)] and no other one, and changes nothing when
    the key is absent.  The next [get_token] for that key sends the login
    request. *)
Theorem invalidate_token_then_get_token
    (tenant email password : string) (w : World) :
  let w1 := snd (AuthManager.invalidate_token tenant email w) in
  fst (AuthManager.invalidate_token tenant email w) = Ok tt /\
  _token_cache w1 !! (tenant, email) = None /\
  (forall key, key <> (tenant, email) ->
               _token_cache w1 !! key = _token_cache w !! key) /\
  (_token_cache w !! (tenant, email) = None -> w1 = w) /\
  sent w1 = sent w /\
  (forall force,
      sent (snd (get_token tenant email password force w1)) =
        (sent w ++ [login_request tenant email password])%list).
Proof.
  assert (H : fst (AuthManager.invalidate_token tenant email w) = Ok tt /\
              _token_cache (snd (AuthManager.invalidate_token tenant email w))
                = delete (tenant, email) (_token_cache w) /\
              sent (snd (AuthManager.invalidate_token tenant email w)) = sent w /\
              (_token_cache w !! (tenant, email) = None ->
               snd (AuthManager.invalidate_token tenant email w) = w)).
  { unfold AuthManager.invalidate_token.
    destruct (_token_cache w !! (tenant, email)) eqn:E; simpl.
    - repeat split; auto. discriminate.
    - repeat split; auto. symmetry. apply delete_id. exact E. }
  destruct H as (Hr & Hc & Hs & Hid). cbv zeta.
  split; [exact Hr|]. split; [rewrite Hc; apply lookup_delete_eq|].
  split; [intros key Hk; rewrite Hc; apply lookup_delete_ne; congruence|].
  split; [exact Hid|]. split; [exact Hs|].
  intros force.
  destruct (AuthFacts.get_token_sent clock network api_base_url
              tenant email password force
              (snd (AuthManager.invalidate_token tenant email w)))
    as [[(c & Hhit) _] | [_ Heq]].
  - destruct Hhit as (_ & Hl & _). rewrite Hc, lookup_delete_eq in Hl. discriminate.
  - rewrite Heq, Hs. reflexivity.
Qed.

(** X10: A token whose lifetime is at most [EXPIRY_BUFFER_SECONDS] is
    never served from the cache: when the clock does not run backwards and
    a call fetched a token with [expires_in <= 300], the next call without
    forced refresh sends the login request again. *)
Theorem short_lived_token_refetched
    (tenant email password : string) (force : bool) (data : Body)
    (lifetime : Z) (w : World) :
  (forall m n, (m <= n)%nat -> clock m <= clock n) ->
  force = true \/ _token_cache w !! (tenant, email) = None ->
  request_succeeded
    (network (length (sent w)) (login_request tenant email password)) data ->
  expires_in data = inr (Finite lifetime) ->
  lifetime <= EXPIRY_BUFFER_SECONDS ->
  let w1 := snd (get_token tenant email password force w) in
  sent w1 = (sent w ++ [login_request tenant email password])%list /\
  sent (snd (get_token tenant email password false w1)) =
    (sent w1 ++ [login_request tenant email password])%list.
Proof.
  intros Hmono Hmiss Hok Hsecs Hlife. cbv zeta.
  assert (Hw : mkWorld (time_calls w) (sent w) (_token_cache w) = w)
    by (destruct w; reflexivity).
  pose proof (AuthFacts.request_token_success clock network api_base_url
                tenant email password data (Finite lifetime) w Hok Hsecs) as Hsucc.
  destruct (AuthFacts.get_token_cases clock network api_base_url
              tenant email password force w)
    as [(c & n & Hhit & _) | [(token & n & _ & Heq & Hreq & Hn)
                             | (e & n & n' & _ & _ & Hr & _)]].
  { destruct Hhit as (Hf & Hl & _). destruct Hmiss; congruence. }
  2:{ exfalso.
      destruct (AuthFacts.request_token_raises clock network api_base_url
                  tenant email password e w Hr) as (_ & m & Hraise).
      rewrite Hsucc in Hraise. discriminate. }
  rewrite (Hn Hmiss) in *. clear Hn.
  rewrite Hw, Hsucc in Hreq. injection Hreq as <-.
  rewrite Heq. simpl. split; [reflexivity|].
  match goal with |- context [get_token _ _ _ false ?w1] =>
    destruct (AuthFacts.get_token_sent clock network api_base_url
                tenant email password false w1)
      as [[(c' & Hhit) _] | [_ Heq']]
  end.
  - exfalso. destruct Hhit as (_ & Hl & _ & _ & Hbuf). simpl in Hl, Hbuf.
    rewrite lookup_insert_eq in Hl. injection Hl as <-.
    unfold EXPIRY_BUFFER_SECONDS in *.
    cbv [expires_at fadd fsub fneg float_lt] in Hbuf.
    pose proof (Hmono (time_calls w) (S (S (time_calls w)))). lia.
  - exact Heq'.
Qed.

(** X11: When the refresh response carries ["refresh_token": null] (or an
    empty string), the token [refresh_token] returns has no usable refresh
    token: refreshing it again raises [ValueError] without sending
    anything. *)
Theorem refresh_null_refresh_token
    (token : AuthToken) (r : string) (data : Body) (w : World) :
  Auth.refresh_token token = Some r ->
  r <> "" ->
  request_succeeded (network (length (sent w)) (refresh_request token r)) data ->
  j_refresh_token data = Some None \/ j_refresh_token data = Some (Some "") ->
  exists new_token w',
    refresh token w = (Ok new_token, w') /\
    truthy_opt (Auth.refresh_token new_token) = false /\
    forall w'',
      refresh new_token w'' = (Raise (ValueError "No refresh token available"), w'').
Proof.
  intros Hr Hne Hok Hnull. pose proof Hok as (_ & _ & _ & secs & Hsecs).
  rewrite (AuthFacts.refresh_token_success clock network api_base_url
             token r data secs w Hr Hne Hok Hsecs).
  eexists. eexists. split; [reflexivity|].
  unfold AuthManager.refresh_token. simpl.
  destruct Hnull as [-> | ->]; simpl; auto.
Qed.

Lemma get_auth_headers_run (tenant email password : string) (w : World)
    (token : AuthToken) (w' : World) :
  get_token tenant email password false w = (Ok token, w') ->
  get_auth_headers tenant email password w =
    (Ok (<["Authorization" := "Bearer " +:+ access_token token]>
         (<["X-Tenant-ID" := tenant]>
         (<["Content-Type" := "application/json"]> ∅))), w').
Proof.
  intros Heq. unfold AuthManager.get_auth_headers, bind. rewrite Heq. reflexivity.
Qed.

Lemma get_auth_headers_raise (tenant email password : string) (w : World)
    (e : exn) (w' : World) :
  get_token tenant email password false w = (Raise e, w') ->
  get_auth_headers tenant email password w = (Raise e, w').
Proof.
  intros Heq. unfold AuthManager.get_auth_headers, bind. rewrite Heq. reflexivity.
Qed.

(** X12: [get_auth_headers] acts on the world as [get_token] does, and
    returns exactly when [get_token] returns: an exception of [get_token]
    passes through.  The dict returned has exactly the three keys, with
    ["Authorization"] being ["Bearer "] followed by the access token now
    cached for [(tenant, email)], and ["X-Tenant-ID"] the tenant passed. *)
Theorem get_auth_headers_bearer (tenant email password : string) (w : World) :
  (forall token w',
     get_token tenant email password false w = (Ok token, w') ->
     exists headers,
       get_auth_headers tenant email password w = (Ok headers, w') /\
       _token_cache w' !! (tenant, email) = Some token /\
       headers !! "Authorization" = Some ("Bearer " +:+ access_token token) /\
       headers !! "X-Tenant-ID" = Some tenant /\
       headers !! "Content-Type" = Some "application/json" /\
       dom headers = {[ "Authorization"; "X-Tenant-ID"; "Content-Type" ]}) /\
  (forall e w',
     get_token tenant email password false w = (Raise e, w') ->
     get_auth_headers tenant email password w = (Raise e, w')).
Proof.
  split; [|intros e w' Heq; exact (get_auth_headers_raise _ _ _ _ _ _ Heq)].
  intros token w' Heq.
  assert (Hkey : _token_cache w' !! (tenant, email) = Some token).
  { destruct (get_token_post tenant email password false w)
      as [(token' & w'' & Heq' & Hkey & _) | (e & w'' & Heq' & _)];
      rewrite Heq in Heq'; [|discriminate].
    injection Heq' as <- <-. exact Hkey. }
  eexists. split; [exact (get_auth_headers_run _ _ _ _ _ _ Heq)|].
  split; [exact Hkey|].
  split; [apply lookup_insert_eq|].
  split; [rewrite lookup_insert_ne by discriminate; apply lookup_insert_eq|].
  split.
  { do 2 (rewrite lookup_insert_ne by discriminate). apply lookup_insert_eq. }
  rewrite !dom_insert_L, dom_empty_L. set_solver.
Qed.

(** On a registered tenant, [get_tenant_auth] is [get_auth_headers] with
    the admin's credentials. *)
Lemma get_tenant_auth_admin (id : string) (w : World) :
  id = "company1" \/ id = "company2" \/ id = "company3" ->
  exists t,
    Config.get_tenant environ id = Config.Ok t /\
    get_tenant_auth id w =
      get_auth_headers id ("admin@" +:+ id +:+ ".com") (Config.admin_password t) w.
Proof.
  intros H. unfold AuthManager.get_tenant_auth.
  destruct (ConfigFacts.get_tenant_registered environ id H)
    as (t & Ht & Hid & _ & Hmail).
  exists t. rewrite Ht, Hid, Hmail. auto.
Qed.

Lemma get_tenant_auth_registered (id : string) (w : World)
    (headers : gmap string string) (w' : World) :
  id = "company1" \/ id = "company2" \/ id = "company3" ->
  get_tenant_auth id w = (Ok headers, w') ->
  exists token,
    _token_cache w' !! (id, "admin@" +:+ id +:+ ".com") = Some token /\
    headers !! "Authorization" = Some ("Bearer " +:+ access_token token) /\
    headers !! "X-Tenant-ID" = Some id.
Proof.
  intros H Heq.
  destruct (get_tenant_auth_admin id w H) as (t & _ & Hadm).
  rewrite Hadm in Heq.
  destruct (get_token_post id ("admin@" +:+ id +:+ ".com")
              (Config.admin_password t) false w)
    as [(token & w'' & Hget & Hkey & _) | (e & w'' & Hget & _)].
  - rewrite (get_auth_headers_run _ _ _ _ _ _ Hget) in Heq.
    injection Heq as <- <-. exists token.
    split; [exact Hkey|]. split; [apply lookup_insert_eq|].
    rewrite lookup_insert_ne by discriminate. apply lookup_insert_eq.
  - rewrite (get_auth_headers_raise _ _ _ _ _ _ Hget) in Heq. discriminate.
Qed.

Lemma get_tenant_auth_unregistered (id : string) (w : World) :
  ~ (id = "company1" \/ id = "company2" \/ id = "company3") ->
  get_tenant_auth id w = (Raise (ValueError ("Unknown tenant: " +:+ id)), w).
Proof.
  intros H. unfold AuthManager.get_tenant_auth.
  rewrite (ConfigFacts.get_tenant_unregistered environ id H). reflexivity.
Qed.


(** X14: [get_test_credentials] raises [ValueError] for an unregistered
    tenant, whatever the role.  For a registered tenant the email is
    [<role>@<tenant>.com] for every role, the admin's included; the admin
    password is the registry's, and any other role's is read from the
    variable named [upper(tenant) + "_" + upper(role) + "_PASSWORD"], with
    the default ["password123"]; this holds whatever [str.upper] maps a
    string to. *)
Theorem get_test_credentials_email
    (str_upper : string -> string) (id role : string) :
  let registered := id = "company1" \/ id = "company2" \/ id = "company3" in
  (~ registered ->
   get_test_credentials str_upper environ id role =
     Config.ValueError ("Unknown tenant: " +:+ id)) /\
  (registered ->
   exists t password,
     Config.get_tenant environ id = Config.Ok t /\
     get_test_credentials str_upper environ id role =
       Config.Ok (role +:+ "@" +:+ id +:+ ".com", password) /\
     (role = "admin" -> password = Config.admin_password t) /\
     (role <> "admin" ->
      password = default "password123"
                   (environ !! (str_upper id +:+ "_" +:+ str_upper role
                                  +:+ "_PASSWORD")))).
Proof.
  cbv zeta. unfold get_test_credentials.
  split.
  - intros H. rewrite (ConfigFacts.get_tenant_unregistered environ id H).
    reflexivity.
  - intros H.
    apply (ConfigFacts.get_tenant_registered environ) in H
      as (t & Ht & _ & _ & Hmail).
    rewrite Ht. exists t.
    destruct (String.eqb_spec role "admin") as [->|Hrole].
    + exists (Config.admin_password t). rewrite Hmail.
      repeat split; auto. congruence.
    + eexists. repeat split; auto. congruence.
Qed.

End Facts.

Lemma cache_consistent_preserved_witness :
  cache_consistent
    (snd (AuthManager.get_token clock_1000 net_token "http://api"
            "company1" "admin@company1.com" "password123" false world0)).
Proof.
  apply (cache_consistent_preserved clock_1000 net_token "http://api" world0).
  intros key token H. simpl in H. rewrite lookup_empty in H. discriminate.
Defined.

Lemma get_token_hit_ignores_password_witness :
  let w := {| time_calls := 0; sent := [];
              _token_cache :=
                <[("company1", "admin@company1.com") := fetched_token]> ∅ |} in
  AuthManager.get_token clock_1000 net_down "http://api"
    "company1" "admin@company1.com" "password123" false w =
  AuthManager.get_token clock_1000 net_down "http://api"
    "company1" "admin@company1.com" "wrong" false w.
Proof.
  intros w.
  apply (get_token_hit_ignores_password clock_1000 net_down "http://api"
           "company1" "admin@company1.com" "password123" "wrong" w fetched_token).
  unfold AuthManager.cache_hit, EXPIRY_BUFFER_SECONDS.
  split; [reflexivity|]. split; [reflexivity|]. split; [discriminate|].
  split; vm_compute; reflexivity.
Defined.

Lemma short_lived_token_refetched_witness :
  let net := fun (n : nat) (req : Request) =>
               Responded 200 (Object {| j_access_token := Some "tok";
                                        j_refresh_token := None;
                                        j_expires_in := Some (JInt 60) |}) in
  let get := AuthManager.get_token clock_1000 net "http://api"
               "company1" "admin@company1.com" "password123" false in
  length (sent (snd (get (snd (get world0))))) = 2%nat.
Proof.
  intros net get.
  destruct (short_lived_token_refetched clock_1000 net "http://api"
              "company1" "admin@company1.com" "password123" false
              {| j_access_token := Some "tok"; j_refresh_token := None;
                 j_expires_in := Some (JInt 60) |} 60 world0) as [H1 H2].
  - intros m n _. unfold clock_1000. lia.
  - right. reflexivity.
  - exists 200. split; [reflexivity|]. split; [lia|]. eexists. reflexivity.
  - reflexivity.
  - unfold EXPIRY_BUFFER_SECONDS. lia.
  - subst get. rewrite H2, H1. reflexivity.
Defined.

Lemma refresh_null_refresh_token_witness :
  let net := fun (n : nat) (req : Request) =>
               Responded 200 (Object {| j_access_token := Some "tok";
                                        j_refresh_token := Some None;
                                        j_expires_in := None |}) in
  exists new_token w',
    AuthManager.refresh_token clock_1000 net "http://api" refreshable_token world0
      = (Ok new_token, w') /\
    truthy_opt (Auth.refresh_token new_token) = false /\
    forall w'',
      AuthManager.refresh_token clock_1000 net "http://api" new_token w'' =
        (Raise (ValueError "No refresh token available"), w'').
Proof.
  intros net.
  apply (refresh_null_refresh_token clock_1000 net "http://api"
           refreshable_token "r1"
           {| j_access_token := Some "tok"; j_refresh_token := Some None;
              j_expires_in := None |} world0).
  - reflexivity.
  - discriminate.
  - exists 200. split; [reflexivity|]. split; [lia|]. eexists. reflexivity.
  - left. reflexivity.
Defined.

End AuthExtraFacts.

Module ApiClientExtraFacts.

Import ApiClient.

Lemma append_cons (c : ascii) (s t : string) :
  String c s +:+ t = String c (s +:+ t).
Proof. reflexivity. Qed.

Lemma append_nil_l (t : string) : "" +:+ t = t.
Proof. reflexivity. Qed.

Lemma rstrip_slash_decompose (s : string) :
  ~ ends_with_slash (rstrip_slash s) /\
  exists n, s = rstrip_slash s +:+ slashes n.
Proof.
  induction s as [|c rest [IHend [n IHn]]].
  - split; [|exists 0%nat; reflexivity].
    intros [t Ht]. destruct t; discriminate.
  - simpl. destruct (rstrip_slash rest) as [|d r] eqn:E.
    + rewrite append_nil_l in IHn.
      destruct (Ascii.eqb_spec c "/"%char) as [->|Hc].
      * split; [|exists (S n); rewrite IHn; reflexivity].
        intros [t Ht]. destruct t; discriminate.
      * split; [|exists n; rewrite IHn; reflexivity].
        intros [t Ht]. destruct t as [|a t].
        -- rewrite append_nil_l in Ht. congruence.
        -- rewrite append_cons in Ht. injection Ht as _ Ht.
           destruct t; discriminate.
    + split; [|exists n; rewrite IHn at 1; reflexivity].
      intros [t Ht]. destruct t as [|a t].
      * rewrite append_nil_l in Ht. discriminate.
      * rewrite append_cons in Ht. injection Ht as _ Ht.
        apply IHend. exists t. exact Ht.
Qed.

Lemma rstrip_slash_append_slash (s : string) :
  rstrip_slash (s +:+ "/") = rstrip_slash s.
Proof.
  induction s as [|c rest IH].
  - reflexivity.
  - rewrite append_cons. simpl. rewrite IH. reflexivity.
Qed.

(** X15: The client's base URL never ends with a slash: [__init__] removes
    trailing slashes and nothing else, so a base URL given with or without
    a trailing slash yields the same client URL. *)
Theorem init_base_url_normalised (url token tenant : string) (h : Heap) :
  let self := fst (__init__ url token tenant h) in
  ~ ends_with_slash (base_url self) /\
  (exists n, url = base_url self +:+ slashes n) /\
  base_url (fst (__init__ (url +:+ "/") token tenant h)) = base_url self.
Proof.
  simpl. destruct (rstrip_slash_decompose url) as [H1 H2].
  split; [exact H1|]. split; [exact H2|].
  apply rstrip_slash_append_slash.
Qed.

Section Facts.

Variable Json : Type.
Variable server : nat -> Call Json -> Reply Json.

Ltac run_call :=
  unfold sends_with, bind, self_headers, session_call, raise_for_status,
    response_json, raise, ret; simpl;
  repeat match goal with
         | |- context [server ?n ?c] => destruct (server n c) as [|? [?|]]; simpl
         | |- context [(400 <=? ?st) && (?st <? 600)] =>
             destruct ((400 <=? st) && (st <? 600)); simpl
         end.

(** X16: Every CRUD method reads the header dict at the time of the call: it
    makes exactly one call, whose headers are the current content of the
    dict [self.headers] refers to, whatever the reply is, and it does not
    modify any dict. *)
Theorem crud_calls_carry_live_headers
    (self : APIClient) (w : ClientWorld Json) (hd : gmap string string)
    (payload : Json) (project_id page limit : Z) (user_email : string) :
  heap w !! headers self = Some hd ->
  sends_with (create_project server self payload) w hd /\
  sends_with (get_project server self project_id) w hd /\
  sends_with (list_projects server self page limit) w hd /\
  sends_with (update_project server self project_id payload) w hd /\
  sends_with (delete_project server self project_id) w hd /\
  sends_with (add_team_member server self project_id user_email) w hd /\
  sends_with (remove_team_member server self project_id user_email) w hd.
Proof.
  intros Hhd.
  repeat split;
    [ unfold create_project | unfold get_project | unfold list_projects
    | unfold update_project | unfold delete_project | unfold add_team_member
    | unfold remove_team_member ];
    run_call; rewrite Hhd; simpl;
    eexists; (split; [reflexivity | split; reflexivity]).
Qed.

(** X17: Switching tenant and token on a live client reaches its next
    requests: after [set_tenant id] and [set_token t], a [list_projects]
    call carries ["X-Tenant-ID": id] and ["Authorization": "Bearer t"],
    with every other header as before the switch, and the client's
    [tenant_id] is [id]. *)
Theorem tenant_switch_reaches_requests
    (self : APIClient) (w : ClientWorld Json) (hd : gmap string string)
    (id t : string) (page limit : Z) :
  heap w !! headers self = Some hd ->
  exists self2 w2,
    bind (do_set_tenant self id) (fun self1 => do_set_token self1 t) w
      = (Ok self2, w2) /\
    tenant_id self2 = id /\
    calls w2 = calls w /\
    sends_with (list_projects server self2 page limit) w2
      (<["Authorization" := "Bearer " +:+ t]> (<["X-Tenant-ID" := id]> hd)).
Proof.
  intros Hhd.
  eexists. eexists. split; [reflexivity|]. simpl.
  split; [reflexivity|]. split; [reflexivity|].
  assert (Hlive :
    alter (insert "Authorization" ("Bearer " +:+ t)) (headers self)
      (alter (insert "X-Tenant-ID" id) (headers self) (heap w)) !! headers self
    = Some (<["Authorization" := "Bearer " +:+ t]> (<["X-Tenant-ID" := id]> hd))).
  { rewrite !lookup_alter_eq, Hhd. reflexivity. }
  unfold list_projects. run_call; rewrite Hlive; simpl;
    eexists; (split; [reflexivity | split; reflexivity]).
Qed.

(** X18: [health_check] never raises and sends no headers: it makes one GET to
    [<base_url>/health] with a 5 second timeout, and returns [True]
    exactly when a response with status 200 arrives; a failed call and
    every other status give [False]. *)
Theorem health_check_total (self : APIClient) (w : ClientWorld Json) :
  exists b,
    health_check server self w =
      (Ok b, mkClientWorld (heap w) (calls w ++ [health_call self])) /\
    (b = true <->
     exists body, server (length (calls w)) (health_call self) = Response 200 body).
Proof.
  unfold health_check, session_call, health_call.
  destruct (server _ _) as [|st body] eqn:E; simpl.
  - exists false. split; [reflexivity|].
    split; [discriminate | intros [b H]; discriminate].
  - exists (st =? 200). split; [reflexivity|].
    rewrite Z.eqb_eq. split.
    + intros ->. exists body. reflexivity.
    + intros [b H]. congruence.
Qed.

(** X19: What counts as success.  [delete_project] returns exactly when a
    response arrives whose status is not a 4xx or 5xx, whatever its body;
    [get_project] returns exactly when, in addition, the body decodes, and
    then it returns that body.  So on a bodiless reply (a 204, say)
    [delete_project] returns and [get_project] raises. *)
Theorem delete_and_get_success
    (self : APIClient) (w : ClientWorld Json) (hd : gmap string string)
    (project_id : Z) :
  heap w !! headers self = Some hd ->
  let deleted := server (length (calls w)) (delete_call self hd project_id) in
  let got := server (length (calls w)) (get_call self hd project_id) in
  (fst (delete_project server self project_id w) = Ok tt <->
   exists st body, deleted = Response st body /\ ~ (400 <= st < 600)) /\
  (forall j,
      fst (get_project server self project_id w) = Ok j <->
      exists st, got = Response st (Some j) /\ ~ (400 <= st < 600)) /\
  (forall st, got = Response st None -> ~ (400 <= st < 600) ->
      fst (get_project server self project_id w) = Raise JSONDecodeError).
Proof.
  intros Hhd. cbv zeta.
  unfold delete_project, get_project, delete_call, get_call,
    bind, self_headers, session_call, raise_for_status, response_json,
    raise, ret; simpl.
  rewrite Hhd; simpl.
  split; [|split].
  - destruct (server _ _) as [|st body]; simpl.
    + split; [discriminate | intros (st & b & H & _); discriminate].
    + destruct ((400 <=? st) && (st <? 600)) eqn:Est; simpl.
      * apply AuthFacts.status_check_true in Est.
        split; [discriminate|]. intros (st' & b & [= <- <-] & H). contradiction.
      * apply AuthFacts.status_check_false in Est.
        split; [|reflexivity]. intros _. exists st, body. auto.
  - intros j. destruct (server _ _) as [|st body]; simpl.
    + split; [discriminate | intros (st & H & _); discriminate].
    + destruct ((400 <=? st) && (st <? 600)) eqn:Est; simpl.
      * apply AuthFacts.status_check_true in Est.
        split; [discriminate|]. intros (st' & [= <- _] & H). contradiction.
      * apply AuthFacts.status_check_false in Est.
        destruct body as [b|]; simpl.
        -- split.
           ++ intros [= ->]. exists st. auto.
           ++ intros (st' & [= _ ->] & _). reflexivity.
        -- split; [discriminate | intros (st' & H & _); discriminate].
  - intros st -> Hst. simpl.
    apply AuthFacts.status_check_false in Hst. rewrite Hst. reflexivity.
Qed.

(** X20: The teardown of [cleanup_projects] cannot fail and skips nothing: it
    makes exactly one DELETE call per tracked id, in order, whatever the
    replies to the earlier ones, and leaves the header dicts alone. *)
Theorem cleanup_projects_deletes_each
    (client : APIClient) (ids : list Z) (w : ClientWorld Json) :
  let hd := default ∅ (heap w !! headers client) in
  heap (cleanup_projects server client ids w) = heap w /\
  calls (cleanup_projects server client ids w) =
    (calls w ++ map (delete_call client hd) ids)%list.
Proof.
  cbv zeta. revert w. induction ids as [|id rest IH]; intros w; simpl.
  - split; [reflexivity|]. rewrite app_nil_r. reflexivity.
  - assert (Hstep :
      heap (snd (delete_project server client id w)) = heap w /\
      calls (snd (delete_project server client id w)) =
        (calls w ++ [delete_call client (default ∅ (heap w !! headers client)) id])%list).
    { unfold delete_project, delete_call. run_call; split; reflexivity. }
    destruct Hstep as [Hh Hc].
    destruct (IH (snd (delete_project server client id w))) as [IHh IHc].
    rewrite IHh, IHc, Hh, Hc. split; [reflexivity|].
    rewrite <- app_assoc. reflexivity.
Qed.

End Facts.

Lemma crud_calls_carry_live_headers_witness :
  let server := fun (n : nat) (c : Call unit) => @Failed unit in
  let w := mkClientWorld (snd test_client) (@nil (Call unit)) in
  sends_with (get_project server (fst test_client) 7) w test_headers.
Proof.
  intros server w.
  apply (crud_calls_carry_live_headers unit server (fst test_client) w
           test_headers tt 7 1 20 "user1@test.com").
  reflexivity.
Defined.

Lemma tenant_switch_reaches_requests_witness :
  let server := fun (n : nat) (c : Call unit) => Response 200 (Some tt) in
  let w := mkClientWorld (snd test_client) (@nil (Call unit)) in
  exists self2 w2,
    bind (do_set_tenant (fst test_client) "company2")
         (fun self1 => do_set_token self1 "t2") w = (Ok self2, w2) /\
    tenant_id self2 = "company2" /\
    calls w2 = calls w /\
    sends_with (list_projects server self2 1 20) w2
      (<["Authorization" := "Bearer t2"]>
         (<["X-Tenant-ID" := "company2"]> test_headers)).
Proof.
  intros server w.
  apply (tenant_switch_reaches_requests unit server (fst test_client) w
           test_headers "company2" "t2" 1 20).
  reflexivity.
Defined.

Lemma delete_and_get_success_witness :
  let server := fun (n : nat) (c : Call unit) => @Response unit 204 None in
  let w := mkClientWorld (snd test_client) (@nil (Call unit)) in
  fst (get_project server (fst test_client) 7 w) = Raise JSONDecodeError.
Proof.
  intros server w.
  apply (proj2 (proj2 (delete_and_get_success unit server (fst test_client) w
                         test_headers 7 eq_refl)) 204).
  - reflexivity.
  - lia.
Defined.

End ApiClientExtraFacts.

Module DashboardExtraFacts.

Import Dashboard.

Lemma append_assoc (a b c : string) : (a +:+ b) +:+ c = a +:+ (b +:+ c).
Proof.
  induction a as [|x a IH]; [reflexivity|].
  change (String x ((a +:+ b) +:+ c) = String x (a +:+ (b +:+ c))).
  rewrite IH. reflexivity.
Qed.

Lemma is_substring_trans (a b c : string) :
  is_substring a b -> is_substring b c -> is_substring a c.
Proof.
  intros (p1 & q1 & ->) (p2 & q2 & ->).
  exists (p2 +:+ p1), (q1 +:+ q2).
  rewrite !append_assoc. reflexivity.
Qed.

(** X21: A shorter marker is a stricter check: when the scan finds no card
    containing [marker], it finds none containing any longer string that
    has [marker] inside it.  So a check that passes for ["Company"] passes
    for ["Company2"], and not the other way round. *)
Theorem verify_marker_monotone (page : Page) (marker longer : string) :
  is_substring marker longer ->
  verify_no_cross_tenant_data page marker = Ok true ->
  verify_no_cross_tenant_data page longer = Ok true.
Proof.
  unfold verify_no_cross_tenant_data, wait_for_network_idle.
  intros Hsub. destruct (network_idle page); [|discriminate].
  intros [= H]. f_equal.
  apply DashboardFacts.scan_cards_true in H.
  apply DashboardFacts.scan_cards_true.
  eapply Forall_impl; [exact H|].
  intros card Hc Hl. apply Hc. eapply is_substring_trans; eassumption.
Qed.

(** X22: The empty marker is contained in every text: with
    [excluded_tenant = ""] the check returns [True] only on a dashboard
    without project cards, and [False] after reading the first card
    otherwise. *)
Theorem verify_empty_marker (page : Page) :
  network_idle page = true ->
  verify_no_cross_tenant_data page "" =
    Ok (match project_cards page with [] => true | _ :: _ => false end) /\
  snd (scan_cards "" (project_cards page) 0) =
    match project_cards page with [] => 0%nat | _ :: _ => 1%nat end.
Proof.
  unfold verify_no_cross_tenant_data, wait_for_network_idle.
  intros ->. destruct (project_cards page) as [|card rest]; [split; reflexivity|].
  simpl. destruct (default "" (text_content card)); split; reflexivity.
Qed.

Lemma verify_marker_monotone_witness :
  verify_no_cross_tenant_data company1_page "Company2" = Ok true.
Proof.
  apply (verify_marker_monotone company1_page "pany2" "Company2").
  - exists "Com", "". reflexivity.
  - reflexivity.
Defined.

Lemma verify_empty_marker_witness :
  verify_no_cross_tenant_data company1_page "" = Ok false.
Proof.
  apply (verify_empty_marker company1_page). reflexivity.
Defined.

End DashboardExtraFacts.

Module ConftestFacts.

Import Conftest.

Lemma starts_with_append (old t : string) :
  Dashboard.starts_with old (old +:+ t) = true.
Proof. apply DashboardFacts.prefix_append. exists t. reflexivity. Qed.

Lemma replace_from_skip (old new u t : string) :
  replace_from old new (String.length u) (u +:+ t) = replace_from old new 0 t.
Proof.
  induction u as [|c u IH]; [reflexivity|].
  change (String c u +:+ t) with (String c (u +:+ t)). simpl. exact IH.
Qed.

Lemma replace_from_absent (old new s : string) :
  ~ Dashboard.is_substring old s -> replace_from old new 0 s = s.
Proof.
  induction s as [|c rest IH]; intros Hno; [reflexivity|].
  simpl.
  destruct (Dashboard.starts_with old (String c rest)) eqn:E.
  - exfalso. apply Hno. apply DashboardFacts.prefix_append in E as [t Ht].
    exists "", t. exact Ht.
  - rewrite IH; [reflexivity|].
    intros (p & q & Hpq). apply Hno.
    exists (String c p), q. rewrite Hpq. reflexivity.
Qed.

(** [replace] undoes a prefix once: for a non-empty [old] that does not
    occur in [t], [(old + t).replace(old, new)] is [new + t]. *)
Lemma str_replace_prefix (old new t : string) :
  old <> "" ->
  ~ Dashboard.is_substring old t ->
  str_replace old new (old +:+ t) = new +:+ t.
Proof.
  intros Hne Hno. unfold str_replace.
  destruct old as [|c old]; [congruence|].
  pose proof (starts_with_append (String c old) t) as Hp.
  change (String c old +:+ t) with (String c (old +:+ t)) in *.
  cbn [replace_from]. rewrite Hp.
  cbn [String.length pred].
  rewrite replace_from_skip, replace_from_absent by exact Hno.
  reflexivity.
Qed.

Section Facts.

Variable clock : nat -> Z.
Variable network : nat -> Auth.Request -> Auth.Outcome.
Variable environ : gmap string string.

(** X23: The API client fixtures.  For an unregistered tenant the fixture
    raises the [ValueError] of [Config.get_tenant].  For a registered one
    it returns exactly when [get_tenant_auth] returns, and an exception
    of [get_tenant_auth] passes through (the header lookup never fails).
    When it returns, the client's [tenant_id] and ["X-Tenant-ID"] are the
    tenant, and when the access token obtained does not contain
    ["Bearer "], stripping the header recovers it exactly: the client's
    ["Authorization"] header is ["Bearer "] followed by the token cached
    for the tenant's admin. *)
Theorem api_client_fixture_token (id : string) (w : Auth.World) (h : ApiClient.Heap) :
  let registered := id = "company1" \/ id = "company2" \/ id = "company3" in
  let auth := Auth.AuthManager.get_tenant_auth clock network
                (Config.get_api_base_url environ) environ id w in
  (~ registered ->
   api_client_for clock network environ id w h =
     (Raise (AuthError (Auth.ValueError ("Unknown tenant: " +:+ id))), w)) /\
  (registered ->
   (forall e w',
      auth = (Auth.Raise e, w') ->
      api_client_for clock network environ id w h = (Raise (AuthError e), w')) /\
   (forall headers w',
      auth = (Auth.Ok headers, w') ->
      exists token client h',
        api_client_for clock network environ id w h = (Ok (client, h'), w') /\
        Auth._token_cache w' !! (id, "admin@" +:+ id +:+ ".com") = Some token /\
        ApiClient.tenant_id client = id /\
        ApiClient.header client h' "X-Tenant-ID" = Some id /\
        (~ Dashboard.is_substring "Bearer " (Auth.access_token token) ->
         ApiClient.header client h' "Authorization" =
           Some ("Bearer " +:+ Auth.access_token token)))).
Proof.
  cbv zeta. unfold api_client_for.
  split.
  - intros H.
    rewrite (AuthExtraFacts.get_tenant_auth_unregistered clock network
               (Config.get_api_base_url environ) environ id w H).
    reflexivity.
  - intros H. split.
    + intros e w' Heq. rewrite Heq. reflexivity.
    + intros headers w' Heq.
      destruct (AuthExtraFacts.get_tenant_auth_registered clock network
                  (Config.get_api_base_url environ) environ id w headers w' H Heq)
        as (token & Hc & Ha & Hx).
      rewrite Heq, Ha.
      exists token.
      exists (fst (ApiClient.__init__ (Config.get_api_base_url environ)
                     (str_replace "Bearer " "" ("Bearer " +:+ Auth.access_token token))
                     id h)).
      exists (snd (ApiClient.__init__ (Config.get_api_base_url environ)
                     (str_replace "Bearer " "" ("Bearer " +:+ Auth.access_token token))
                     id h)).
      split; [reflexivity|]. split; [exact Hc|].
      destruct (ApiClientFacts.init_headers (Config.get_api_base_url environ)
                  (str_replace "Bearer " "" ("Bearer " +:+ Auth.access_token token))
                  id h) as (_ & Hauth & Htenant & _ & Hid).
      split; [exact Hid|]. split; [exact Htenant|].
      intros Hno. rewrite Hauth.
      rewrite (str_replace_prefix "Bearer " "" _ ltac:(discriminate) Hno).
      reflexivity.
Qed.

End Facts.

(** X24: The fixtures hand [Config.get_api_base_url()] to the client
    unchanged (it has no trailing slash to strip), and every endpoint of
    [API_ENDPOINTS] already ends in [/api/v1]: the call [create_project]
    makes goes to [<endpoint>/api/v1/projects], a URL in which the
    [/api/v1] prefix occurs twice. *)
Theorem fixture_client_url_prefix_twice
    (environ : gmap string string) (token tenant : string) (h : ApiClient.Heap)
    (Json : Type) (server : nat -> ApiClient.Call Json -> ApiClient.Reply Json)
    (payload : Json) (w : ApiClient.ClientWorld Json) :
  let self := fst (ApiClient.__init__ (Config.get_api_base_url environ)
                     token tenant h) in
  ApiClient.base_url self = Config.get_api_base_url environ /\
  exists call,
    ApiClient.calls (snd (ApiClient.create_project server self payload w)) =
      (ApiClient.calls w ++ [call])%list /\
    ApiClient.c_url call =
      Config.get_api_base_url environ +:+ "/api/v1/projects" /\
    Dashboard.is_substring "/api/v1/api/v1/projects" (ApiClient.c_url call).
Proof.
  cbv zeta.
  assert (Hbase : ApiClient.rstrip_slash (Config.get_api_base_url environ) =
                  Config.get_api_base_url environ).
  { unfold Config.get_api_base_url.
    destruct (Config.get_environment environ); reflexivity. }
  split; [exact Hbase|].
  unfold ApiClient.create_project, ApiClient.bind, ApiClient.self_headers,
    ApiClient.session_call. simpl.
  rewrite Hbase.
  eexists. split; [|split].
  - destruct (server _ _) as [|st body]; simpl; [reflexivity|].
    unfold ApiClient.raise_for_status. simpl.
    destruct ((400 <=? st) && (st <? 600)); simpl; [reflexivity|].
    destruct body; reflexivity.
  - reflexivity.
  - simpl. unfold Config.get_api_base_url.
    destruct (Config.get_environment environ).
    + exists "http://localhost:8000", "". reflexivity.
    + exists "https://api.staging.workflowpro.com", "". reflexivity.
    + exists "https://api.workflowpro.com", "". reflexivity.
Qed.

(** X25: [pytest_collection_modifyitems] keeps every item, in order; an
    item keeps its keywords, and only ["skip"] can be added to them.  When
    both BrowserStack variables are set and non-empty no item is touched;
    otherwise exactly the items carrying the keyword [mobile] or
    [browserstack] receive one more skip marker, with the reason
    ["BrowserStack not configured"], and with it the keyword ["skip"]. *)
Theorem collection_skips_mobile_without_browserstack
    (environ : gmap string string) (items : list Item) :
  let items' := pytest_collection_modifyitems environ items in
  let selected item := "mobile" ∈ keywords item \/ "browserstack" ∈ keywords item in
  length items' = length items /\
  (forall i item item',
     items !! i = Some item -> items' !! i = Some item' ->
     keywords item ⊆ keywords item' /\
     keywords item' ⊆ {["skip"]} ∪ keywords item) /\
  (Config.get_browserstack_config environ <> None -> items' = items) /\
  (Config.get_browserstack_config environ = None ->
   forall i item, items !! i = Some item ->
     (selected item ->
      items' !! i = Some (add_skip_marker "BrowserStack not configured" item) /\
      "skip" ∈ keywords (add_skip_marker "BrowserStack not configured" item)) /\
     (~ selected item -> items' !! i = Some item)).
Proof.
  cbv zeta. unfold pytest_collection_modifyitems.
  set (c := Config.get_browserstack_config environ).
  change (map (modify_item c) items) with (modify_item c <$> items).
  assert (Hkw : forall item,
             keywords item ⊆ keywords (modify_item c item) /\
             keywords (modify_item c item) ⊆ {["skip"]} ∪ keywords item).
  { intros item. unfold modify_item.
    destruct (_ || _); [|split; [reflexivity | apply union_subseteq_r]].
    destruct c; simpl;
      [split; [reflexivity | apply union_subseteq_r]
      |split; [apply union_subseteq_r | reflexivity]]. }
  split; [apply length_fmap|]. split; [|split].
  - intros i item item' Hi Hi'.
    rewrite list_lookup_fmap, Hi in Hi'. injection Hi' as <-. apply Hkw.
  - intros Hcfg. destruct c as [cfg|]; [|congruence].
    rewrite <- (list_fmap_id items) at 2. apply list_fmap_ext.
    intros i item _. unfold modify_item. destruct (_ || _); reflexivity.
  - intros -> i item Hi.
    rewrite list_lookup_fmap, Hi. simpl. unfold modify_item.
    split.
    + intros Hsel.
      split; [|simpl; apply elem_of_union_l, elem_of_singleton; reflexivity].
      destruct Hsel as [Hm | Hb].
      * rewrite (bool_decide_eq_true_2 _ Hm). reflexivity.
      * rewrite (bool_decide_eq_true_2 _ Hb), orb_true_r. reflexivity.
    + intros Hno.
      rewrite !bool_decide_eq_false_2; [reflexivity | tauto | tauto].
Qed.

(** An access token that contains ["Bearer "] does not survive the
    fixture: every occurrence is removed. *)
Example str_replace_bearer_inside :
  str_replace "Bearer " "" ("Bearer " +:+ "aBearer b") = "ab".
Proof. reflexivity. Qed.

Lemma api_client_fixture_token_witness :
  exists token client h' w',
    api_client_company1 Auth.clock_1000 Auth.net_token ∅ Auth.world0 ∅
      = (Ok (client, h'), w') /\
    Auth._token_cache w' !! ("company1", "admin@company1.com") = Some token /\
    ApiClient.header client h' "Authorization" = Some "Bearer tok".
Proof.
  destruct (proj2 (proj2 (api_client_fixture_token Auth.clock_1000 Auth.net_token ∅
                            "company1" Auth.world0 ∅) (or_introl eq_refl))
              (<["Authorization" := "Bearer tok"]>
                 (<["X-Tenant-ID" := "company1"]>
                 (<["Content-Type" := "application/json"]> ∅)))
              (Auth.mkWorld 1
                 [Auth.AuthManager.login_request (Config.get_api_base_url ∅)
                    "company1" "admin@company1.com" "password123"]
                 (<[("company1", "admin@company1.com") := Auth.fetched_token]> ∅)))
    as (token & client & h' & Heq & Hc & _ & _ & Ha).
  { vm_compute. reflexivity. }
  eexists token, client, h', _. split; [exact Heq|]. split; [exact Hc|].
  assert (Htok : token = Auth.fetched_token).
  { vm_compute in Hc. injection Hc as <-. reflexivity. }
  subst token. apply Ha.
  intros (p & q & Hpq).
  assert (Hin : Dashboard.str_in "Bearer " "tok" = true).
  { apply DashboardFacts.str_in_substring. exists p, q. exact Hpq. }
  discriminate Hin.
Defined.

End ConftestFacts.
